(** * MewbileTech billing: contracts, phone lines and customers

    A shallow embedding of [contract.py], [phoneline.py], [callhistory.py]
    and the billing methods of [customer.py].

    Numbers.  A Python [int] is a [Z].  A Python [float] is an exact
    rational [Q]: the float literals [0.1], [0.05], [0.025], [20.00], ... stand
    for their decimal values, and [+], [*] and [/] are exact, so that
    [ceil(duration / 60.0)] is the integer ceiling of the quotient.  Binary
    rounding of floats is not part of this model.

    Objects.  A [Bill] is created by a phone line, kept in its [bills]
    dictionary and handed to the contract, which keeps it in [self.bill] and
    mutates it.  Both names denote the same object, so bills live in a heap
    (a list indexed by locations) and contracts and dictionaries hold
    locations.  Phone lines are objects as well: a customer holds a list of
    references to them and [list.remove] compares them by identity.

    Exceptions.  A method is a function from the heap to an [outcome]: either
    a result with the new heap, or a raised exception.  What a method had
    changed before it raised is not kept; no property below is about the
    state after an exception. *)

From Stdlib Require Import ZArith QArith Qround Lia Lqa.
From stdpp Require Import base option list gmap strings.

Local Open Scope Z_scope.

(** ** Heap-passing computations that may raise *)

Inductive exn : Type :=
| AttributeError   (* an attribute of [None], or an attribute never set *)
| TypeError        (* an [int] compared with a tuple *)
| ValueError       (* [list.remove] of an absent element *)
| DanglingRef      (* a location outside the heap: no Python counterpart *)
| OutOfFuel.       (* a loop cut short by its fuel: no Python counterpart *)

Inductive outcome (A : Type) : Type :=
| Return (a : A)
| Raise (e : exn).
Arguments Return {A} a.
Arguments Raise {A} e.

Definition M (S A : Type) : Type := S → outcome (A * S).

Definition ret {S A} (a : A) : M S A := λ s, Return (a, s).

Definition raise {S A} (e : exn) : M S A := λ _, Raise e.

Definition bind {S A B} (m : M S A) (k : A → M S B) : M S B :=
  λ s, match m s with
       | Return (a, s') => k a s'
       | Raise e => Raise e
       end.

Declare Scope py_scope.
Delimit Scope py_scope with py.
Notation "x <- m ;; k" := (bind m (λ x, k))
  (at level 100, m at next level, right associativity) : py_scope.
Notation "m ;; k" := (bind m (λ _, k))
  (at level 100, right associativity) : py_scope.

(** [o.attr] where [o] may be [None]. *)
Definition deref {S A} (o : option A) : M S A :=
  match o with
  | Some a => ret a
  | None => raise AttributeError
  end.

(** ** Dates, calls and tuples *)

(** [datetime.date]: the contracts read [.month] and [.year] only. *)
Record date : Type := Date { year : Z; month : Z; day : Z }.

(** Modelled from the spec: class [Call] of call.py, which is not among the
    sources.  The spec gives a call event the fields source number,
    destination number, timestamp and duration in seconds; the contracts read
    [call.duration] only. *)
Record Call : Type := mkCall {
  src_number : string;
  dst_number : string;
  time : date;
  duration : Z
}.

(** Python compares tuples lexicographically, first component first. *)
Definition tuple_eqb (a b : Z * Z) : bool :=
  (a.1 =? b.1) && (a.2 =? b.2).

Definition tuple_ltb (a b : Z * Z) : bool :=
  (a.1 <? b.1) || ((a.1 =? b.1) && (a.2 <? b.2)).

Definition tuple_gtb (a b : Z * Z) : bool := tuple_ltb b a.

(** [math.ceil] on an exact quotient. *)
Definition ceil (x : Q) : Z := Qceiling x.

(** [ceil(call.duration / 60.0)], the minutes a call is billed for. *)
Definition minutes_of (d : Z) : Z := ceil (inject_Z d / 60).

(** ** Bills *)

(** Modelled from the spec: class [Bill] of bill.py, which is not among the
    sources.  The spec gives a bill a fixed cost, a rate per minute with its
    label, the free minutes used and the billed minutes, all starting empty;
    contract.py names the free-minute attribute [free_min]. *)
Record Bill : Type := mkBill {
  bill_type : string;
  min_rate : Q;
  fixed_cost : Q;
  free_min : Z;
  billed_min : Z
}.

(** Modelled from the spec: [Bill()], a fresh bill for a cycle. *)
Definition Bill_init : Bill := mkBill "" 0 0 0 0.

(** Modelled from the spec: [set_rates] sets the label and the rate. *)
Definition set_rates (label : string) (rate : Q) (b : Bill) : Bill :=
  mkBill label rate (fixed_cost b) (free_min b) (billed_min b).

(** Modelled from the spec: [add_fixed_cost] adds a possibly negative
    amount to the fixed cost. *)
Definition add_fixed_cost (cost : Q) (b : Bill) : Bill :=
  mkBill (bill_type b) (min_rate b) (fixed_cost b + cost)%Q
         (free_min b) (billed_min b).

(** Modelled from the spec: [add_billed_minutes] increments the billed
    minutes. *)
Definition add_billed_minutes (minutes : Z) (b : Bill) : Bill :=
  mkBill (bill_type b) (min_rate b) (fixed_cost b)
         (free_min b) (billed_min b + minutes).

(** [self.bill.free_min += minutes], as contract.py writes it. *)
Definition incr_free_min (minutes : Z) (b : Bill) : Bill :=
  mkBill (bill_type b) (min_rate b) (fixed_cost b)
         (free_min b + minutes) (billed_min b).

(** Modelled from the spec: [get_cost], the total
    [fixed_cost + billed_minutes * rate_per_minute]. *)
Definition get_cost (b : Bill) : Q :=
  (fixed_cost b + inject_Z (billed_min b) * min_rate b)%Q.

(** ** The bill heap *)

Definition loc : Type := nat.

(** [self.bill.method(...)] for a method that mutates the bill. *)
Definition bill_update (self_bill : option loc) (method : Bill → Bill)
  : M (list Bill) unit :=
  λ h, match self_bill with
       | None => Raise AttributeError
       | Some l =>
           match h !! l with
           | Some b => Return (tt, <[l := method b]> h)
           | None => Raise DanglingRef
           end
       end.

(** [self.bill.method()] for a method that only reads the bill. *)
Definition bill_read {A} (self_bill : option loc) (method : Bill → A)
  : M (list Bill) A :=
  λ h, match self_bill with
       | None => Raise AttributeError
       | Some l =>
           match h !! l with
           | Some b => Return (method b, h)
           | None => Raise DanglingRef
           end
       end.

(** [Bill()]: a new object, at the end of the heap. *)
Definition bill_alloc : M (list Bill) loc :=
  λ h, Return (length h, h ++ [Bill_init]).

(** ** contract.py *)

Definition MTM_MONTHLY_FEE : Q := 50.00.
Definition TERM_MONTHLY_FEE : Q := 20.00.
Definition TERM_DEPOSIT : Q := 300.00.
Definition TERM_MINS : Z := 100.
Definition MTM_MINS_COST : Q := 0.05.
Definition TERM_MINS_COST : Q := 0.1.
Definition PREPAID_MINS_COST : Q := 0.025.

(** The three concrete classes with their attributes.  [start] and [end_]
    are [None] once the contract is cancelled; [bill] is [None] until the
    first [new_month]; [saved_month] is [None] while it still holds the
    integer [0] that [TermContract.__init__] stores, a cycle afterwards. *)
Inductive Contract : Type :=
| TermContract (start end_ : option date) (bill : option loc)
               (term_minutes : Z) (saved_month : option (Z * Z))
| MTMContract (start : option date) (bill : option loc)
| PrepaidContract (start : option date) (bill : option loc) (balance : Z).

Definition TermContract_init (start end_ : date) : Contract :=
  TermContract (Some start) (Some end_) None 0 None.

Definition MTMContract_init (start : date) : Contract :=
  MTMContract (Some start) None.

Definition PrepaidContract_init (start : date) (balance : Z) : Contract :=
  PrepaidContract (Some start) None balance.

Definition contract_bill (self : Contract) : option loc :=
  match self with
  | TermContract _ _ bill _ _ => bill
  | MTMContract _ bill => bill
  | PrepaidContract _ bill _ => bill
  end.

Section ContractMethods.
Local Open Scope py_scope.

(** [Contract.bill_call], inherited by [MTMContract]. *)
Definition Contract_bill_call (self : Contract) (call : Call)
  : M (list Bill) Contract :=
  bill_update (contract_bill self)
              (add_billed_minutes (minutes_of (duration call))) ;;
  ret self.

(** [TermContract.new_month] *)
Definition TermContract_new_month (start end_ : option date)
    (month' year' : Z) (bill : loc) : M (list Bill) Contract :=
  bill_update (Some bill) (set_rates "TERM" TERM_MINS_COST) ;;
  bill_update (Some bill) (add_fixed_cost TERM_MONTHLY_FEE) ;;
  s <- deref start ;;
  (if tuple_eqb (month', year') (month s, year s)
   then bill_update (Some bill) (add_fixed_cost TERM_DEPOSIT)
   else ret tt) ;;
  ret (TermContract start end_ (Some bill) 100 (Some (month', year'))).

(** [TermContract.bill_call] *)
Definition TermContract_bill_call (start end_ : option date)
    (bill : option loc) (term_minutes : Z) (saved_month : option (Z * Z))
    (call : Call) : M (list Bill) Contract :=
  if 0 <? term_minutes then
    bill_update bill (incr_free_min (minutes_of (duration call))) ;;
    let term_minutes := term_minutes - minutes_of (duration call) in
    (if term_minutes <? 0
     then bill_update bill (add_billed_minutes (term_minutes * -1))
     else ret tt) ;;
    ret (TermContract start end_ bill term_minutes saved_month)
  else if term_minutes =? 0 then
    bill_update bill (add_billed_minutes (minutes_of (duration call))) ;;
    ret (TermContract start end_ bill term_minutes saved_month)
  else
    ret (TermContract start end_ bill term_minutes saved_month).

(** [TermContract.cancel_contract].  Neither branch has a [return]
    statement, and a last cycle equal to the end cycle takes no branch: the
    method always returns [None]. *)
Definition TermContract_cancel_contract (start end_ : option date)
    (bill : option loc) (term_minutes : Z) (saved_month : option (Z * Z))
  : M (list Bill) (option Q * Contract) :=
  e <- deref end_ ;;
  match saved_month with
  | None => raise TypeError
  | Some saved =>
      if tuple_gtb saved (month e, year e) then
        bill_update bill (add_fixed_cost (-300)) ;;
        bill_read bill get_cost ;;
        ret (None, TermContract None None bill term_minutes saved_month)
      else if tuple_ltb saved (month e, year e) then
        bill_read bill get_cost ;;
        ret (None, TermContract None None bill term_minutes saved_month)
      else
        ret (None, TermContract start end_ bill term_minutes saved_month)
  end.

(** [MTMContract.new_month] *)
Definition MTMContract_new_month (start : option date)
    (month' year' : Z) (bill : loc) : M (list Bill) Contract :=
  bill_update (Some bill) (set_rates "MTM" MTM_MINS_COST) ;;
  bill_update (Some bill) (add_fixed_cost MTM_MONTHLY_FEE) ;;
  ret (MTMContract start (Some bill)).

(** [self.start = None] *)
Definition clear_start (self : Contract) : Contract :=
  match self with
  | TermContract _ end_ bill term_minutes saved_month =>
      TermContract None end_ bill term_minutes saved_month
  | MTMContract _ bill => MTMContract None bill
  | PrepaidContract _ bill balance => PrepaidContract None bill balance
  end.

(** [Contract.cancel_contract], inherited by [MTMContract]. *)
Definition Contract_cancel_contract (self : Contract)
  : M (list Bill) (option Q * Contract) :=
  cost <- bill_read (contract_bill self) get_cost ;;
  ret (Some cost, clear_start self).

(** [PrepaidContract.new_month] *)
Definition PrepaidContract_new_month (start : option date) (balance : Z)
    (month' year' : Z) (bill : loc) : M (list Bill) Contract :=
  bill_update (Some bill) (set_rates "PREPAID" PREPAID_MINS_COST) ;;
  bill_update (Some bill) (add_fixed_cost (inject_Z (balance * -1))) ;;
  ret (PrepaidContract start (Some bill)
         (if -10 <? balance then balance - 25 else balance)).

(** [PrepaidContract.bill_call] *)
Definition PrepaidContract_bill_call (self : Contract) (call : Call)
  : M (list Bill) Contract :=
  bill_update (contract_bill self)
              (add_billed_minutes (minutes_of (duration call))) ;;
  ret self.

(** [PrepaidContract.cancel_contract] *)
Definition PrepaidContract_cancel_contract (bill : option loc) (balance : Z)
  : M (list Bill) (option Q * Contract) :=
  if 0 <? balance then
    bill_update bill (add_fixed_cost (inject_Z balance)) ;;
    cost <- bill_read bill get_cost ;;
    ret (Some cost, PrepaidContract None bill balance)
  else
    ret (Some 0.0%Q, PrepaidContract None bill balance).

(** Method dispatch on the class of [self]. *)
Definition new_month (self : Contract) (month' year' : Z) (bill : loc)
  : M (list Bill) Contract :=
  match self with
  | TermContract start end_ _ _ _ =>
      TermContract_new_month start end_ month' year' bill
  | MTMContract start _ => MTMContract_new_month start month' year' bill
  | PrepaidContract start _ balance =>
      PrepaidContract_new_month start balance month' year' bill
  end.

Definition bill_call (self : Contract) (call : Call)
  : M (list Bill) Contract :=
  match self with
  | TermContract start end_ bill term_minutes saved_month =>
      TermContract_bill_call start end_ bill term_minutes saved_month call
  | MTMContract _ _ => Contract_bill_call self call
  | PrepaidContract _ _ _ => PrepaidContract_bill_call self call
  end.

Definition cancel_contract (self : Contract)
  : M (list Bill) (option Q * Contract) :=
  match self with
  | TermContract start end_ bill term_minutes saved_month =>
      TermContract_cancel_contract start end_ bill term_minutes saved_month
  | MTMContract _ _ => Contract_cancel_contract self
  | PrepaidContract _ bill balance =>
      PrepaidContract_cancel_contract bill balance
  end.

End ContractMethods.

(** ** phoneline.py *)

(** A phone line with its number, its contract and the dictionary from
    cycles [(month, year)] to bills.  The call history plays no part in
    billing and is left out. *)
Record PhoneLine : Type := mkPhoneLine {
  number : string;
  contract : Contract;
  bills : gmap (Z * Z) loc
}.

Definition PhoneLine_init (number : string) (contract : Contract)
  : PhoneLine :=
  mkPhoneLine number contract ∅.

Section PhoneLineMethods.
Local Open Scope py_scope.

(** [PhoneLine.new_month] *)
Definition PhoneLine_new_month (self : PhoneLine) (month' year' : Z)
  : M (list Bill) PhoneLine :=
  match bills self !! (month', year') with
  | Some _ => ret self
  | None =>
      b <- bill_alloc ;;
      c <- new_month (contract self) month' year' b ;;
      ret (mkPhoneLine (number self) c (<[(month', year') := b]> (bills self)))
  end.

(** [PhoneLine.cancel_line] *)
Definition cancel_line (self : PhoneLine)
  : M (list Bill) (option Q * PhoneLine) :=
  r <- cancel_contract (contract self) ;;
  ret (r.1, mkPhoneLine (number self) r.2 (bills self)).

(** [PhoneLine.get_number] *)
Definition get_number (self : PhoneLine) : string := number self.

End PhoneLineMethods.

(** ** customer.py *)

(** The objects a customer reaches: the bills and the phone lines. *)
Record Store : Type := mkStore {
  bill_objs : list Bill;
  line_objs : list PhoneLine
}.

Record Customer : Type := mkCustomer {
  _id : Z;
  _phone_lines : list loc
}.

(** [pl.method()] on the phone line at [pl], for a method that reads. *)
Definition line_read {A} (pl : loc) (method : PhoneLine → A) : M Store A :=
  λ s, match line_objs s !! pl with
       | Some o => Return (method o, s)
       | None => Raise DanglingRef
       end.

(** [pl.method()] on the phone line at [pl], for a method that mutates the
    line and the bills. *)
Definition line_call {A} (pl : loc)
    (method : PhoneLine → M (list Bill) (A * PhoneLine)) : M Store A :=
  λ s, match line_objs s !! pl with
       | Some o =>
           match method o (bill_objs s) with
           | Return ((a, o'), h') =>
               Return (a, mkStore h' (<[pl := o']> (line_objs s)))
           | Raise e => Raise e
           end
       | None => Raise DanglingRef
       end.

(** [list.remove(x)]: drops the first occurrence, [None] when there is
    none (Python raises [ValueError]). *)
Fixpoint list_remove (x : loc) (l : list loc) : option (list loc) :=
  match l with
  | [] => None
  | y :: l' =>
      if decide (y = x) then Some l'
      else match list_remove x l' with
           | Some r => Some (y :: r)
           | None => None
           end
  end.

(** The phone line at [p] exists and has a number other than [n]. *)
Definition other_number (s : Store) (n : string) (p : loc) : Prop :=
  ∃ o : PhoneLine, line_objs s !! p = Some o ∧ number o ≠ n.

Section CustomerMethods.
Local Open Scope py_scope.

(** The [for] loop of [cancel_phone_line].  A Python list iterator is an
    index [i] into the list as it is now: it stops when [i] is past the
    end, otherwise yields the element at [i] and moves on to [i + 1], also
    when the body has removed an element. *)
Fixpoint cancel_loop (fuel : nat) (number' : string) (i : nat)
    (lines : list loc) (fee : option Q)
  : M Store (option Q * list loc) :=
  match fuel with
  | O => raise OutOfFuel
  | S fuel =>
      match lines !! i with
      | None => ret (fee, lines)
      | Some pl =>
          n <- line_read pl get_number ;;
          if String.eqb n number' then
            match list_remove pl lines with
            | None => raise ValueError
            | Some lines' =>
                fee' <- line_call pl cancel_line ;;
                cancel_loop fuel number' (S i) lines' fee'
            end
          else cancel_loop fuel number' (S i) lines fee
      end
  end.

(** [Customer.cancel_phone_line]: the loop runs at most once per element
    and once more to find the end. *)
Definition cancel_phone_line (self : Customer) (number' : string)
  : M Store (option Q * Customer) :=
  r <- cancel_loop (S (length (_phone_lines self))) number' 0
                   (_phone_lines self) None ;;
  ret (r.1, mkCustomer (_id self) r.2).

(** [Customer.get_phone_numbers] *)
Fixpoint numbers_of (lines : list loc) : M Store (list string) :=
  match lines with
  | [] => ret []
  | pl :: lines =>
      n <- line_read pl get_number ;;
      ns <- numbers_of lines ;;
      ret (n :: ns)
  end.

Definition get_phone_numbers (self : Customer) : M Store (list string) :=
  numbers_of (_phone_lines self).

End CustomerMethods.

(** ** Sequences of calls *)

Definition is_TermContract (self : Contract) : bool :=
  match self with
  | TermContract _ _ _ _ _ => true
  | _ => false
  end.

Section Drivers.
Local Open Scope py_scope.

(** What a driver does with the calls of a cycle: [bill_call] for each call
    of the list, in order. *)
Fixpoint bill_calls (self : Contract) (calls : list Call)
  : M (list Bill) Contract :=
  match calls with
  | [] => ret self
  | call :: calls => c <- bill_call self call ;; bill_calls c calls
  end.

(** A cycle from its start to the cancellation: the new month on the bill
    at [l], the calls of a list, then [cancel_contract]. *)
Definition month_then_cancel (c : Contract) (m y : Z) (l : loc)
    (calls : list Call) : M (list Bill) (option Q * Contract) :=
  c1 <- new_month c m y l ;;
  c2 <- bill_calls c1 calls ;;
  cancel_contract c2.

End Drivers.

(** The minutes of the calls of a list, each call rounded up on its own. *)
Fixpoint total_minutes (calls : list Call) : Z :=
  match calls with
  | [] => 0
  | call :: calls => minutes_of (duration call) + total_minutes calls
  end.

(** ** callhistory.py *)

(** A Python [dict] keeps its keys in the order of their first insertion, and
    [get_monthly_history] walks the dictionaries in that order: a dictionary
    from cycles is a list of pairs, a key at most once. *)

(** [d[key]], [None] for a missing key. *)
Fixpoint dict_get {V} (key : Z * Z) (d : list ((Z * Z) * V)) : option V :=
  match d with
  | [] => None
  | (k, v) :: d => if decide (k = key) then Some v else dict_get key d
  end.

(** [key in d] *)
Definition dict_in {V} (key : Z * Z) (d : list ((Z * Z) * V)) : bool :=
  match dict_get key d with
  | Some _ => true
  | None => false
  end.

(** [d[key] = v]: a present key keeps its place, a new key goes last. *)
Fixpoint dict_set {V} (key : Z * Z) (v : V) (d : list ((Z * Z) * V))
  : list ((Z * Z) * V) :=
  match d with
  | [] => [(key, v)]
  | (k, v') :: d =>
      if decide (k = key) then (k, v) :: d else (k, v') :: dict_set key v d
  end.

(** [d[key].append(call)] for a key of [d]. *)
Definition dict_append (key : Z * Z) (call : Call)
    (d : list ((Z * Z) * list Call)) : list ((Z * Z) * list Call) :=
  match dict_get key d with
  | Some calls => dict_set key (calls ++ [call]) d
  | None => d
  end.

Record CallHistory : Type := mkCallHistory {
  outgoing_calls : list ((Z * Z) * list Call);
  incoming_calls : list ((Z * Z) * list Call)
}.

Definition CallHistory_init : CallHistory := mkCallHistory [] [].

(** [CallHistory.register_outgoing_call] *)
Definition register_outgoing_call (self : CallHistory) (call : Call)
  : CallHistory :=
  let y := time call in
  if negb (dict_in (month y, year y) (outgoing_calls self)) then
    let outgoing := dict_set (month y, year y) [] (outgoing_calls self) in
    mkCallHistory (dict_append (month y, year y) call outgoing)
                  (incoming_calls self)
  else if dict_in (month y, year y) (outgoing_calls self) then
    mkCallHistory (dict_append (month y, year y) call (outgoing_calls self))
                  (incoming_calls self)
  else self.

(** [CallHistory.register_incoming_call] *)
Definition register_incoming_call (self : CallHistory) (call : Call)
  : CallHistory :=
  let y := time call in
  if negb (dict_in (month y, year y) (incoming_calls self)) then
    let incoming := dict_set (month y, year y) [] (incoming_calls self) in
    mkCallHistory (outgoing_calls self)
                  (dict_append (month y, year y) call incoming)
  else if dict_in (month y, year y) (incoming_calls self) then
    mkCallHistory (outgoing_calls self)
                  (dict_append (month y, year y) call (incoming_calls self))
  else self.

(** [for entry in d: for call in d[entry]: ...append(call)] *)
Definition all_calls (d : list ((Z * Z) * list Call)) : list Call :=
  flat_map (λ entry, default [] (dict_get entry.1 d)) d.

(** [CallHistory.get_monthly_history]; a missing argument is [None]. *)
Definition get_monthly_history (self : CallHistory) (month' year' : option Z)
  : list Call * list Call :=
  match month', year' with
  | Some m, Some y =>
      (if dict_in (m, y) (outgoing_calls self)
       then default [] (dict_get (m, y) (outgoing_calls self)) else [],
       if dict_in (m, y) (incoming_calls self)
       then default [] (dict_get (m, y) (incoming_calls self)) else [])
  | _, _ =>
      (all_calls (outgoing_calls self), all_calls (incoming_calls self))
  end.

(** The calls a phone line makes and receives, as its history sees them. *)
Inductive line_event : Type :=
| MakeCall (call : Call)
| ReceiveCall (call : Call).

Definition register_event (self : CallHistory) (ev : line_event)
  : CallHistory :=
  match ev with
  | MakeCall call => register_outgoing_call self call
  | ReceiveCall call => register_incoming_call self call
  end.

Definition made (evs : list line_event) : list Call :=
  omap (λ ev, match ev with MakeCall c => Some c | _ => None end) evs.

Definition received (evs : list line_event) : list Call :=
  omap (λ ev, match ev with ReceiveCall c => Some c | _ => None end) evs.

(** Modelled from the spec: [Call.get_bill_date] of call.py, the cycle
    (month, year) of the call's timestamp. *)
Definition get_bill_date (call : Call) : Z * Z :=
  (month (time call), year (time call)).

Definition in_cycle (cycle : Z * Z) (call : Call) : bool :=
  bool_decide (get_bill_date call = cycle).

(** The calls stored for a cycle, none for a missing cycle. *)
Definition calls_of (d : list ((Z * Z) * list Call)) (cycle : Z * Z)
  : list Call :=
  default [] (dict_get cycle d).

(** What both [register] methods do to their dictionary. *)
Definition dict_register (call : Call) (d : list ((Z * Z) * list Call))
  : list ((Z * Z) * list Call) :=
  if negb (dict_in (get_bill_date call) d)
  then dict_append (get_bill_date call) call
         (dict_set (get_bill_date call) [] d)
  else dict_append (get_bill_date call) call d.

(** ** phoneline.py: calls and bill summaries *)

(** The dictionary [get_bill] returns, with the keys its docstring lists. *)
Record BillSummary : Type := mkBillSummary {
  summary_number : string;
  summary_type : string;
  summary_fixed : Q;
  summary_free_mins : Z;
  summary_billed_mins : Z;
  summary_min_rate : Q;
  summary_total : Q
}.

(** Modelled from the spec: [Bill.get_summary] of bill.py, the read-only
    snapshot of a bill with its total; the number is filled in by the phone
    line. *)
Definition get_summary (number' : string) (b : Bill) : BillSummary :=
  mkBillSummary number' (bill_type b) (fixed_cost b) (free_min b)
                (billed_min b) (min_rate b) (get_cost b).

Section PhoneLineCalls.
Local Open Scope py_scope.

(** [PhoneLine.make_call].  The attribute [self.callhistory] is passed and
    returned beside [self]. *)
Definition make_call (self : PhoneLine) (callhistory : CallHistory)
    (call : Call) : M (list Bill) (PhoneLine * CallHistory) :=
  self <- match bills self !! get_bill_date call with
          | None =>
              PhoneLine_new_month self (month (time call)) (year (time call))
          | Some _ => ret self
          end ;;
  let callhistory := register_outgoing_call callhistory call in
  c <- bill_call (contract self) call ;;
  ret (mkPhoneLine (number self) c (bills self), callhistory).

(** [PhoneLine.receive_call] *)
Definition receive_call (self : PhoneLine) (callhistory : CallHistory)
    (call : Call) : M (list Bill) (PhoneLine * CallHistory) :=
  self <- match bills self !! get_bill_date call with
          | None =>
              PhoneLine_new_month self (month (time call)) (year (time call))
          | Some _ => ret self
          end ;;
  ret (self, register_incoming_call callhistory call).

(** [PhoneLine.get_bill] *)
Definition get_bill (self : PhoneLine) (month' year' : Z)
  : M (list Bill) (option BillSummary) :=
  match bills self !! (month', year') with
  | None => ret None
  | Some l =>
      bill_summary <- bill_read (Some l) (get_summary (number self)) ;;
      ret (Some bill_summary)
  end.

(** The calls of a list made from a phone line, in order. *)
Fixpoint make_calls (self : PhoneLine) (callhistory : CallHistory)
    (calls : list Call) : M (list Bill) (PhoneLine * CallHistory) :=
  match calls with
  | [] => ret (self, callhistory)
  | call :: calls =>
      r <- make_call self callhistory call ;;
      make_calls r.1 r.2 calls
  end.

End PhoneLineCalls.

(** Every bill a phone line refers to is in the heap, two cycles never
    share a bill, and the bill the contract writes to is one of the stored
    bills. *)
Definition line_ok (h : list Bill) (self : PhoneLine) : Prop :=
  (∀ cycle l, bills self !! cycle = Some l → (l < length h)%nat) ∧
  (∀ cycle1 cycle2 l,
     bills self !! cycle1 = Some l → bills self !! cycle2 = Some l →
     cycle1 = cycle2) ∧
  (∀ l, contract_bill (contract self) = Some l →
        ∃ cycle, bills self !! cycle = Some l).

Section PhoneLineMonths.
Local Open Scope py_scope.

(** A phone line advanced through the cycles of a list, in order. *)
Fixpoint PhoneLine_new_months (self : PhoneLine) (cycles : list (Z * Z))
  : M (list Bill) PhoneLine :=
  match cycles with
  | [] => ret self
  | cycle :: cycles =>
      self <- PhoneLine_new_month self cycle.1 cycle.2 ;;
      PhoneLine_new_months self cycles
  end.

End PhoneLineMonths.

(** The balance of a prepaid contract that started at [balance], after [n]
    new months: 25 less each month, for as many months as it takes to reach
    -10 or less. *)
Definition prepaid_balance_after (balance : Z) (n : Z) : Z :=
  balance - 25 * Z.max 0 (Z.min n ((balance + 34) / 25)).

(** ** customer.py: the other methods *)

(** The call histories of the phone lines, one for each line object: the
    history of the line at [p] is at [p]. *)
Record World : Type := mkWorld {
  world_store : Store;
  history_objs : list CallHistory
}.

(** [x.attr] on the phone line at [pl]. *)
Definition world_line_read {A} (pl : loc) (method : PhoneLine → A)
  : M World A :=
  λ w, match line_objs (world_store w) !! pl with
       | Some o => Return (method o, w)
       | None => Raise DanglingRef
       end.

(** [x.method(call)] on the phone line at [pl] with its call history. *)
Definition line_call_history (pl : loc)
    (method : PhoneLine → CallHistory →
              M (list Bill) (PhoneLine * CallHistory))
  : M World unit :=
  λ w, match line_objs (world_store w) !! pl, history_objs w !! pl with
       | Some o, Some hist =>
           match method o hist (bill_objs (world_store w)) with
           | Return ((o', hist'), h') =>
               Return (tt, mkWorld
                             (mkStore h' (<[pl := o']>
                                            (line_objs (world_store w))))
                             (<[pl := hist']> (history_objs w)))
           | Raise e => Raise e
           end
       | _, _ => Raise DanglingRef
       end.

Section CustomerMore.
Local Open Scope py_scope.

(** The loop of [Customer.new_month]; the list is not changed under it. *)
Fixpoint lines_new_month (lines : list loc) (month' year' : Z)
  : M Store unit :=
  match lines with
  | [] => ret tt
  | line :: lines =>
      line_call line (λ o, o' <- PhoneLine_new_month o month' year' ;;
                           ret (tt, o')) ;;
      lines_new_month lines month' year'
  end.

(** [Customer.new_month] *)
Definition Customer_new_month (self : Customer) (month' year' : Z)
  : M Store unit :=
  lines_new_month (_phone_lines self) month' year'.

(** The loop of [Customer.make_call]. *)
Fixpoint lines_make_call (lines : list loc) (call : Call) : M World unit :=
  match lines with
  | [] => ret tt
  | x :: lines =>
      n <- world_line_read x number ;;
      (if String.eqb (src_number call) n
       then line_call_history x (λ o hist, make_call o hist call)
       else ret tt) ;;
      lines_make_call lines call
  end.

(** [Customer.make_call] *)
Definition Customer_make_call (self : Customer) (call : Call)
  : M World unit :=
  lines_make_call (_phone_lines self) call.

(** The loop of [Customer.receive_call]. *)
Fixpoint lines_receive_call (lines : list loc) (call : Call)
  : M World unit :=
  match lines with
  | [] => ret tt
  | x :: lines =>
      n <- world_line_read x number ;;
      (if String.eqb (dst_number call) n
       then line_call_history x (λ o hist, receive_call o hist call)
       else ret tt) ;;
      lines_receive_call lines call
  end.

(** [Customer.receive_call] *)
Definition Customer_receive_call (self : Customer) (call : Call)
  : M World unit :=
  lines_receive_call (_phone_lines self) call.

(** [Customer.add_phone_line] for the phone line object at [pline]. *)
Definition add_phone_line (self : Customer) (pline : loc) : Customer :=
  mkCustomer (_id self) (_phone_lines self ++ [pline]).

(** The loop of [Customer.__contains__]. *)
Fixpoint contains_loop (lines : list loc) (item : string) (contains : bool)
  : M Store bool :=
  match lines with
  | [] => ret contains
  | line :: lines =>
      n <- line_read line get_number ;;
      contains_loop lines item (if String.eqb n item then true else contains)
  end.

(** [Customer.__contains__] *)
Definition Customer_contains (self : Customer) (item : string)
  : M Store bool :=
  contains_loop (_phone_lines self) item false.

(** The loop of [Customer.generate_bill]. *)
Fixpoint generate_loop (lines : list loc) (month' year' : Z)
    (bills' : list BillSummary) (total : Q)
  : M Store (Q * list BillSummary) :=
  match lines with
  | [] => ret (total, bills')
  | l :: lines =>
      line_bill <- line_call l (λ o, r <- get_bill o month' year' ;;
                                     ret (r, o)) ;;
      match line_bill with
      | Some summary =>
          generate_loop lines month' year' (bills' ++ [summary])
                        (total + summary_total summary)%Q
      | None => generate_loop lines month' year' bills' total
      end
  end.

(** [Customer.generate_bill] *)
Definition generate_bill (self : Customer) (month' year' : Z)
  : M Store (Z * Q * list BillSummary) :=
  r <- generate_loop (_phone_lines self) month' year' [] 0%Q ;;
  ret (_id self, r.1, r.2).

End CustomerMore.

(** Every phone line object keeps its bills apart. *)
Definition store_ok (s : Store) : Prop :=
  Forall (line_ok (bill_objs s)) (line_objs s).

(** The phone line at [p] has a bill for the cycle. *)
Definition has_bill (s : Store) (cycle : Z * Z) (p : loc) : Prop :=
  ∃ o : PhoneLine, line_objs s !! p = Some o ∧ is_Some (bills o !! cycle).

(** The summary of the bill that the line at [p] has for the cycle, if it
    has one. *)
Definition summary_of (s : Store) (cycle : Z * Z) (p : loc)
  : option BillSummary :=
  o ← line_objs s !! p;
  l ← bills o !! cycle;
  b ← bill_objs s !! l;
  Some (get_summary (number o) b).

(** [h'] is [h] but for the bill at [ob], if any. *)
Definition frame (ob : option loc) (h h' : list Bill) : Prop :=
  length h' = length h ∧ ∀ l, ob ≠ Some l → h' !! l = h !! l.

(** * Properties *)

(** ** Minutes of a call *)

(** The ceiling, written with integer division. *)
Lemma minutes_of_div (d : Z) : minutes_of d = - (- d / 60).
Proof.
  unfold minutes_of, ceil, Qceiling, Qfloor, Qdiv, Qmult, Qopp, Qinv, inject_Z.
  simpl. now rewrite Z.mul_1_r.
Qed.

Lemma minutes_of_bounds (d : Z) :
  (minutes_of d - 1) * 60 < d ≤ minutes_of d * 60.
Proof.
  rewrite minutes_of_div.
  pose proof (Z.div_mod (- d) 60 ltac:(lia)) as Hdm.
  pose proof (Z.mod_pos_bound (- d) 60 ltac:(lia)) as Hm.
  lia.
Qed.


Lemma minutes_of_nonneg (d : Z) : 0 ≤ d → 0 ≤ minutes_of d.
Proof.
  intros Hd. pose proof (minutes_of_bounds d). lia.
Qed.



(** ** Running methods on a bill of the heap *)

Lemma bill_update_Some (h : list Bill) (l : loc) (b : Bill) (f : Bill → Bill) :
  h !! l = Some b → bill_update (Some l) f h = Return (tt, <[l := f b]> h).
Proof. intros Hl. unfold bill_update. now rewrite Hl. Qed.

Lemma bill_read_Some {A} (h : list Bill) (l : loc) (b : Bill) (f : Bill → A) :
  h !! l = Some b → bill_read (Some l) f h = Return (f b, h).
Proof. intros Hl. unfold bill_read. now rewrite Hl. Qed.

Lemma heap_lookup_insert (h : list Bill) (l : loc) (b b' : Bill) :
  h !! l = Some b → <[l := b']> h !! l = Some b'.
Proof.
  intros Hl. apply list_lookup_insert_eq. eapply lookup_lt_Some, Hl.
Qed.

(** One method call on the bill at a location the heap is known to hold. *)
Ltac bill_step :=
  match goal with
  | H : ?h !! ?l = Some ?b |- context [bill_update (Some ?l) ?f ?h] =>
      rewrite (bill_update_Some h l b f H);
      let H' := fresh "Hl" in
      pose proof (heap_lookup_insert h l b (f b) H) as H'
  | H : ?h !! ?l = Some ?b |- context [bill_read (Some ?l) ?f ?h] =>
      rewrite (bill_read_Some h l b f H)
  end.

Ltac bill_run :=
  unfold deref, bind, ret, raise; cbn beta iota;
  repeat (bill_step; cbn beta iota).

Ltac bill_done := rewrite ?list_insert_insert_eq; reflexivity.

(** ** The scenarios of the spec and of the tests *)

(** Term contract from 2017-12-25: the month (12, 2017) costs 20 + 300, and
    a call of 10 seconds uses one free minute, leaves 99 and costs nothing. *)
Example scenario_term :
  ∃ (c1 c2 : Contract) (b1 b2 : Bill),
    new_month (TermContract_init (Date 2017 12 25) (Date 2019 6 25))
              12 2017 0%nat [Bill_init]
    = Return (c1, [b1]) ∧
    (get_cost b1 == 320)%Q ∧
    bill_call c1 (mkCall "867-5309" "649-2568" (Date 2017 12 26) 10) [b1]
    = Return (c2, [b2]) ∧
    c2 = TermContract (Some (Date 2017 12 25)) (Some (Date 2019 6 25))
                      (Some 0%nat) 99 (Some (12, 2017)) ∧
    free_min b2 = 1 ∧ billed_min b2 = 0 ∧ (get_cost b2 == 320)%Q.
Proof.
  eexists _, _, _, _. split; [reflexivity |]. split; [reflexivity |].
  split; [cbv; reflexivity |]. repeat split; reflexivity.
Qed.

(** Prepaid contract with a balance of 100: the month starts at -100, and a
    call of 50 seconds is one billed minute at 0.025. *)
Example scenario_prepaid :
  ∃ (c1 c2 : Contract) (b1 b2 : Bill),
    new_month (PrepaidContract_init (Date 2017 12 25) 100)
              1 2018 0%nat [Bill_init]
    = Return (c1, [b1]) ∧
    bill_call c1 (mkCall "649-2568" "273-8255" (Date 2018 1 1) 50) [b1]
    = Return (c2, [b2]) ∧
    billed_min b2 = 1 ∧ (get_cost b2 == -99.975)%Q.
Proof.
  eexists _, _, _, _. split; [reflexivity |].
  split; [cbv; reflexivity |]. split; reflexivity.
Qed.

(** ** Term contracts: a new month *)

(** C6: [new_month] of a term contract sets the rate to "TERM" at 0.10 per
    minute, resets the included minutes to 100, adds the fee of 20.00,
    records the cycle, and adds the deposit of 300.00 exactly when the cycle
    is that of the start date. *)
Theorem C6_term_new_month (s : date) (e : option date) (bill0 : option loc)
    (tm : Z) (sm : option (Z * Z)) (m y : Z)
    (l : loc) (h : list Bill) (b : Bill) :
  h !! l = Some b →
  ∃ b' : Bill,
    new_month (TermContract (Some s) e bill0 tm sm) m y l h
    = Return (TermContract (Some s) e (Some l) 100 (Some (m, y)),
              <[l := b']> h) ∧
    bill_type b' = "TERM" ∧ (min_rate b' == 0.10)%Q ∧
    free_min b' = free_min b ∧ billed_min b' = billed_min b ∧
    ((m, y) = (month s, year s) ↔
     (fixed_cost b' == fixed_cost b + 20.00 + 300.00)%Q) ∧
    ((m, y) ≠ (month s, year s) →
     (fixed_cost b' == fixed_cost b + 20.00)%Q).
Proof.
  intros Hl. unfold new_month, TermContract_new_month.
  destruct (tuple_eqb (m, y) (month s, year s)) eqn:Heq; cbn beta iota.
  - assert ((m, y) = (month s, year s)) as Hmy.
    { unfold tuple_eqb in Heq. simpl in Heq.
      apply andb_true_iff in Heq as [H1 H2].
      apply Z.eqb_eq in H1, H2. now subst. }
    eexists. split; [bill_run; rewrite Heq; bill_run; bill_done |].
    simpl. unfold TERM_MINS_COST, TERM_MONTHLY_FEE, TERM_DEPOSIT.
    repeat split; try reflexivity; try congruence.
  - assert ((m, y) ≠ (month s, year s)) as Hmy.
    { intros [= -> ->]. unfold tuple_eqb in Heq. simpl in Heq.
      now rewrite !Z.eqb_refl in Heq. }
    eexists. split; [bill_run; rewrite Heq; bill_run; bill_done |].
    simpl. unfold TERM_MINS_COST, TERM_MONTHLY_FEE.
    repeat split; try reflexivity; try congruence.
    intros Hq. exfalso. lra.
Qed.

(** The spec's scenario: start 2017-12-25, a fresh bill, advancing to
    (12, 2017) gives a fixed cost of 20 + 300 = 320. *)
Lemma C6_witness :
  ∃ b' : Bill,
    new_month (TermContract_init (Date 2017 12 25) (Date 2019 6 25))
              12 2017 0%nat [Bill_init]
    = Return (TermContract (Some (Date 2017 12 25)) (Some (Date 2019 6 25))
                           (Some 0%nat) 100 (Some (12, 2017)), [b']) ∧
    (fixed_cost b' == 320)%Q.
Proof.
  destruct (C6_term_new_month (Date 2017 12 25) (Some (Date 2019 6 25)) None
              0 None 12 2017 0%nat [Bill_init] Bill_init eq_refl)
    as (b' & Hrun & _ & _ & _ & _ & Hdep & _).
  exists b'. split; [exact Hrun |].
  rewrite (proj1 Hdep eq_refl). reflexivity.
Defined.

(** ** Prepaid contracts *)

(** C4: [new_month] of a prepaid contract adds the negative of the balance
    it holds to the fixed cost; the balance then is 25 lower when it was
    above -10, and the same otherwise. *)
Theorem C4_prepaid_new_month (st : option date) (bill0 : option loc)
    (balance : Z) (m y : Z) (l : loc) (h : list Bill) (b : Bill) :
  h !! l = Some b →
  ∃ (b' : Bill) (balance' : Z),
    new_month (PrepaidContract st bill0 balance) m y l h
    = Return (PrepaidContract st (Some l) balance', <[l := b']> h) ∧
    (fixed_cost b' == fixed_cost b + - inject_Z balance)%Q ∧
    bill_type b' = "PREPAID" ∧ (min_rate b' == 0.025)%Q ∧
    free_min b' = free_min b ∧ billed_min b' = billed_min b ∧
    (balance > -10 → balance' = balance - 25 ∧ balance' < balance) ∧
    (¬ balance > -10 → balance' = balance).
Proof.
  intros Hl. unfold new_month, PrepaidContract_new_month.
  eexists _, _. split; [bill_run; bill_done |].
  simpl. unfold PREPAID_MINS_COST.
  split.
  { rewrite Z.mul_comm. change (-1 * balance) with (- balance).
    unfold Qeq. simpl. lia. }
  repeat split; try reflexivity.
  - destruct (Z.ltb_spec (-10) balance); lia.
  - destruct (Z.ltb_spec (-10) balance); lia.
  - intros Hn. destruct (Z.ltb_spec (-10) balance); lia.
Qed.

(** The spec's scenario: with a balance of 100 and a fresh bill, the fixed
    cost becomes -100 and the balance 75. *)
Lemma C4_witness :
  ∃ b' : Bill,
    new_month (PrepaidContract_init (Date 2017 12 25) 100)
              12 2017 0%nat [Bill_init]
    = Return (PrepaidContract (Some (Date 2017 12 25)) (Some 0%nat) 75, [b']) ∧
    (fixed_cost b' == -100)%Q.
Proof.
  destruct (C4_prepaid_new_month (Some (Date 2017 12 25)) None 100 12 2017
              0%nat [Bill_init] Bill_init eq_refl)
    as (b' & balance' & Hrun & Hfix & _ & _ & _ & _ & Hdec & _).
  destruct (Hdec ltac:(lia)) as [-> _].
  exists b'. split; [exact Hrun |].
  rewrite Hfix. reflexivity.
Defined.

(** C5: [cancel_contract] of a prepaid contract with a bill.  With a
    positive balance it adds the balance to the fixed cost and returns the
    total of the bill; otherwise it returns 0.0 and leaves every bill as it
    is. *)
Theorem C5_prepaid_cancel (st : option date) (balance : Z)
    (l : loc) (h : list Bill) (b : Bill) :
  h !! l = Some b →
  (balance > 0 →
   ∃ b' : Bill,
     cancel_contract (PrepaidContract st (Some l) balance) h
     = Return ((Some (get_cost b'), PrepaidContract None (Some l) balance),
               <[l := b']> h) ∧
     (fixed_cost b' == fixed_cost b + inject_Z balance)%Q ∧
     bill_type b' = bill_type b ∧ min_rate b' = min_rate b ∧
     free_min b' = free_min b ∧ billed_min b' = billed_min b) ∧
  (balance ≤ 0 →
   cancel_contract (PrepaidContract st (Some l) balance) h
   = Return ((Some 0.0%Q, PrepaidContract None (Some l) balance), h)).
Proof.
  intros Hl. unfold cancel_contract, PrepaidContract_cancel_contract.
  split; intros Hb.
  - destruct (Z.ltb_spec 0 balance); [| lia].
    eexists. split; [bill_run; bill_done |].
    simpl. repeat split; reflexivity.
  - destruct (Z.ltb_spec 0 balance); [lia |]. reflexivity.
Qed.

(** A bill of a prepaid contract whose balance is 75, then -25. *)
Lemma C5_witness :
  (∃ b' : Bill,
     cancel_contract (PrepaidContract (Some (Date 2017 12 25)) (Some 0%nat) 75)
                     [mkBill "PREPAID" 0.025 (-100) 0 1]
     = Return ((Some (get_cost b'), PrepaidContract None (Some 0%nat) 75), [b']) ∧
     (get_cost b' == -24.975)%Q) ∧
  cancel_contract (PrepaidContract (Some (Date 2017 12 25)) (Some 0%nat) (-25))
                  [mkBill "PREPAID" 0.025 (-75) 0 1]
  = Return ((Some 0.0%Q, PrepaidContract None (Some 0%nat) (-25)),
            [mkBill "PREPAID" 0.025 (-75) 0 1]).
Proof.
  split.
  - destruct (proj1 (C5_prepaid_cancel (Some (Date 2017 12 25)) 75 0%nat
                       [mkBill "PREPAID" 0.025 (-100) 0 1] _ eq_refl)
                ltac:(lia))
      as (b' & Hrun & Hfix & _ & Hrate & _ & Hbilled).
    exists b'. split; [exact Hrun |].
    unfold get_cost. rewrite Hfix, Hrate, Hbilled. reflexivity.
  - apply (proj2 (C5_prepaid_cancel (Some (Date 2017 12 25)) (-25) 0%nat
                    [mkBill "PREPAID" 0.025 (-75) 0 1] _ eq_refl)).
    lia.
Defined.

(** ** Month-to-month contracts *)

(** C7: [new_month] of a month-to-month contract sets the rate to "MTM" at
    0.05 per minute and adds the fee of 50.00; [cancel_contract] returns the
    total of the current bill and changes no bill. *)
Theorem C7_mtm_new_month_and_cancel (st : option date) (bill0 : option loc)
    (m y : Z) (l : loc) (h : list Bill) (b : Bill) :
  h !! l = Some b →
  (∃ b' : Bill,
     new_month (MTMContract st bill0) m y l h
     = Return (MTMContract st (Some l), <[l := b']> h) ∧
     bill_type b' = "MTM" ∧ (min_rate b' == 0.05)%Q ∧
     (fixed_cost b' == fixed_cost b + 50.00)%Q ∧
     free_min b' = free_min b ∧ billed_min b' = billed_min b) ∧
  cancel_contract (MTMContract st (Some l)) h
  = Return ((Some (get_cost b), MTMContract None (Some l)), h).
Proof.
  intros Hl. split.
  - unfold new_month, MTMContract_new_month.
    eexists. split; [bill_run; bill_done |].
    simpl. unfold MTM_MINS_COST, MTM_MONTHLY_FEE.
    repeat split; reflexivity.
  - unfold cancel_contract, Contract_cancel_contract. simpl.
    bill_run. reflexivity.
Qed.

(** The spec's scenario: a fresh bill, a new month, one call of 50 seconds;
    the bill then holds 50 fixed and one billed minute, and cancelling
    returns a total of 50.05. *)
Lemma C7_witness :
  ∃ (b1 : Bill) (total : Q),
    new_month (MTMContract_init (Date 2017 12 25)) 1 2018 0%nat [Bill_init]
    = Return (MTMContract (Some (Date 2017 12 25)) (Some 0%nat), [b1]) ∧
    (fixed_cost b1 == 50)%Q ∧
    bill_call (MTMContract (Some (Date 2017 12 25)) (Some 0%nat))
              (mkCall "273-8255" "867-5309" (Date 2018 1 1) 50) [b1]
    = Return (MTMContract (Some (Date 2017 12 25)) (Some 0%nat),
              [add_billed_minutes 1 b1]) ∧
    cancel_contract (MTMContract (Some (Date 2017 12 25)) (Some 0%nat))
                    [add_billed_minutes 1 b1]
    = Return ((Some total, MTMContract None (Some 0%nat)),
              [add_billed_minutes 1 b1]) ∧
    (total == 50.05)%Q.
Proof.
  destruct (C7_mtm_new_month_and_cancel (Some (Date 2017 12 25)) None 1 2018
              0%nat [Bill_init] Bill_init eq_refl)
    as [(b1 & Hrun & _ & Hrate & Hfix & _ & Hbilled) _].
  exists b1, (get_cost (add_billed_minutes 1 b1)).
  split; [exact Hrun |].
  split; [rewrite Hfix; reflexivity |].
  split; [reflexivity |].
  split.
  - apply (C7_mtm_new_month_and_cancel (Some (Date 2017 12 25)) None 1 2018
             0%nat [add_billed_minutes 1 b1] _ eq_refl).
  - unfold get_cost. simpl. rewrite Hfix, Hrate, Hbilled. reflexivity.
Defined.

(** ** Term contracts: calls and cancellation *)

(** Whatever the cycle, [TermContract.cancel_contract] returns [None]:
    the total is computed and dropped. *)
Lemma TermContract_cancel_contract_None (st e : option date)
    (bl : option loc) (tm : Z) (sm : option (Z * Z))
    (h h' : list Bill) (r : option Q) (c' : Contract) :
  cancel_contract (TermContract st e bl tm sm) h = Return ((r, c'), h') →
  r = None.
Proof.
  unfold cancel_contract, TermContract_cancel_contract, deref, bind, ret, raise.
  destruct e as [e |]; [| discriminate].
  destruct sm as [saved |]; [| discriminate].
  destruct (tuple_gtb saved (month e, year e)).
  - destruct (bill_update bl (add_fixed_cost (-300)) h) as [[[] h1] |];
      [| discriminate].
    destruct (bill_read bl get_cost h1) as [[q h2] |]; [| discriminate].
    now intros [= <- _ _].
  - destruct (tuple_ltb saved (month e, year e)).
    + destruct (bill_read bl get_cost h) as [[q h2] |]; [| discriminate].
      now intros [= <- _ _].
    + now intros [= <- _ _].
Qed.

(** C1: a term contract from 2017-12-25 to 2019-06-25.  Advanced to the
    cycle (7, 2019), after the end, and cancelled, the bill gets the 300.00
    back and totals -280, yet [cancel_contract] returns [None], not that
    total; advanced to the cycle (1, 2018), before the end, and cancelled,
    the bill totals 20 and again [None] is returned. *)
Theorem C1_term_cancel_returns_None :
  let c := TermContract_init (Date 2017 12 25) (Date 2019 6 25) in
  (∃ (c1 c2 : Contract) (b1 b2 : Bill),
     new_month c 7 2019 0%nat [Bill_init] = Return (c1, [b1]) ∧
     cancel_contract c1 [b1] = Return ((None, c2), [b2]) ∧
     (fixed_cost b2 == fixed_cost b1 - 300.00)%Q ∧
     (get_cost b2 == -280)%Q) ∧
  (∃ (c1 c2 : Contract) (b1 : Bill),
     new_month c 1 2018 0%nat [Bill_init] = Return (c1, [b1]) ∧
     cancel_contract c1 [b1] = Return ((None, c2), [b1]) ∧
     (get_cost b1 == 20)%Q).
Proof.
  cbv zeta. split.
  - eexists _, _, _, _. split; [reflexivity |]. split; [reflexivity |].
    split; reflexivity.
  - eexists _, _, _. split; [reflexivity |]. split; reflexivity.
Qed.

(** C3: the same contract advanced to the cycle (1, 2020), whose year is
    after the end date's, and cancelled.  The cycles are compared month
    first, so (1, 2020) counts as before (6, 2019): the deposit is not given
    back and the fixed cost stays 20. *)
Theorem C3_term_cancel_compares_month_first :
  let c := TermContract_init (Date 2017 12 25) (Date 2019 6 25) in
  tuple_gtb (1, 2020) (6, 2019) = false ∧
  tuple_ltb (1, 2020) (6, 2019) = true ∧
  ∃ (c1 c2 : Contract) (b1 : Bill),
    new_month c 1 2020 0%nat [Bill_init] = Return (c1, [b1]) ∧
    cancel_contract c1 [b1] = Return ((None, c2), [b1]) ∧
    (fixed_cost b1 == 20)%Q ∧ ¬ (fixed_cost b1 == 20 - 300)%Q.
Proof.
  cbv zeta. split; [reflexivity |]. split; [reflexivity |].
  eexists _, _, _. split; [reflexivity |]. split; [reflexivity |].
  split; [reflexivity | discriminate].
Qed.

(** What [TermContract.bill_call] does with a call of [m] minutes while
    [tm > 0] included minutes are left: all [m] minutes become free minutes,
    and when [m] exceeds [tm] the excess [m - tm] is billed as well. *)
Lemma TermContract_bill_call_included (st e : option date) (l : loc)
    (tm : Z) (sm : option (Z * Z)) (call : Call) (h : list Bill) (b : Bill) :
  h !! l = Some b → 0 < tm →
  let m := minutes_of (duration call) in
  ∃ b' : Bill,
    bill_call (TermContract st e (Some l) tm sm) call h
    = Return (TermContract st e (Some l) (tm - m) sm, <[l := b']> h) ∧
    free_min b' = free_min b + m ∧
    billed_min b' = billed_min b + Z.max 0 (m - tm) ∧
    fixed_cost b' = fixed_cost b.
Proof.
  intros Hl Htm m. unfold bill_call, TermContract_bill_call. fold m.
  destruct (Z.ltb_spec 0 tm); [| lia]. cbv zeta.
  destruct (Z.ltb_spec (tm - m) 0).
  - eexists. split; [bill_run; bill_done |]. simpl.
    repeat split; try reflexivity. f_equal. lia.
  - eexists. split; [bill_run; bill_done |]. simpl.
    repeat split; try reflexivity. lia.
Qed.

(** C2: the same contract advanced to (1, 2018), so that all 100 included
    minutes are left, and a call of 6060 seconds, that is 101 minutes.  The
    bill gets 101 free minutes, more than the 100 that were left, and 1
    billed minute: 102 minutes for a call of 101.  The allotment is then -1,
    and the next call, of 60 seconds, is recorded nowhere. *)
Theorem C2_term_bill_call_counts_excess_twice :
  let c := TermContract_init (Date 2017 12 25) (Date 2019 6 25) in
  let c1 := TermContract (Some (Date 2017 12 25)) (Some (Date 2019 6 25))
                         (Some 0%nat) 100 (Some (1, 2018)) in
  let c2 := TermContract (Some (Date 2017 12 25)) (Some (Date 2019 6 25))
                         (Some 0%nat) (-1) (Some (1, 2018)) in
  minutes_of 6060 = 101 ∧
  ∃ b1 b2 : Bill,
    new_month c 1 2018 0%nat [Bill_init] = Return (c1, [b1]) ∧
    free_min b1 = 0 ∧ billed_min b1 = 0 ∧
    bill_call c1 (mkCall "867-5309" "649-2568" (Date 2018 1 1) 6060) [b1]
    = Return (c2, [b2]) ∧
    free_min b2 = 101 ∧ billed_min b2 = 1 ∧
    free_min b2 + billed_min b2 ≠ minutes_of 6060 ∧
    bill_call c2 (mkCall "867-5309" "649-2568" (Date 2018 1 1) 60) [b2]
    = Return (c2, [b2]).
Proof.
  cbv zeta. split; [reflexivity |].
  eexists _, _. split; [reflexivity |].
  split; [reflexivity |]. split; [reflexivity |].
  split; [cbv; reflexivity |].
  split; [reflexivity |]. split; [reflexivity |].
  split; [discriminate | reflexivity].
Qed.

(** ** Advancing twice to the same cycle *)




(** ** Cancelling a phone line of a customer *)

Lemma line_read_Some {A} (s : Store) (p : loc) (o : PhoneLine)
    (f : PhoneLine → A) :
  line_objs s !! p = Some o → line_read p f s = Return (f o, s).
Proof. intros Hp. unfold line_read. now rewrite Hp. Qed.

Lemma list_remove_middle (l1 l2 : list loc) (p : loc) :
  p ∉ l1 → list_remove p (l1 ++ p :: l2) = Some (l1 ++ l2).
Proof.
  induction l1 as [| q l1 IH]; intros Hnot; simpl.
  - now rewrite decide_True.
  - apply not_elem_of_cons in Hnot as [Hne Hnot].
    rewrite decide_False by congruence. now rewrite IH.
Qed.

(** Over lines with other numbers the loop runs to the end of the list and
    changes nothing; fuel beyond the elements left is enough. *)
Lemma cancel_loop_no_match (n : string) (s : Store) (lines : list loc)
    (fee : option Q) (fuel i : nat) :
  Forall (other_number s n) lines →
  (length lines - i < fuel)%nat →
  cancel_loop fuel n i lines fee s = Return ((fee, lines), s).
Proof.
  intros Hall. revert i.
  induction fuel as [| fuel IH]; intros i Hfuel; [lia |].
  simpl. destruct (lines !! i) as [pl |] eqn:Hi; [| reflexivity].
  destruct (Forall_lookup_1 _ _ _ _ Hall Hi) as (o & Ho & Hne).
  unfold bind. rewrite (line_read_Some s pl o get_number Ho).
  unfold get_number. apply String.eqb_neq in Hne. rewrite Hne.
  apply IH. apply lookup_lt_Some in Hi. lia.
Qed.

(** With one line of number [n], at position [length l1], the loop removes
    it, cancels it, and runs on to the end. *)
Lemma cancel_loop_one_match (n : string) (s : Store) (l1 l2 : list loc)
    (p : loc) (o : PhoneLine) (fee0 fee : option Q) (c' : Contract)
    (h' : list Bill) (fuel i : nat) :
  line_objs s !! p = Some o → number o = n →
  Forall (other_number s n) (l1 ++ l2) →
  cancel_contract (contract o) (bill_objs s) = Return ((fee, c'), h') →
  (i ≤ length l1)%nat →
  (length (l1 ++ p :: l2) - i < fuel)%nat →
  cancel_loop fuel n i (l1 ++ p :: l2) fee0 s
  = Return ((fee, l1 ++ l2),
            mkStore h' (<[p := mkPhoneLine (number o) c' (bills o)]>
                          (line_objs s))).
Proof.
  intros Hp <- Hall Hcancel. revert i.
  assert (p ∉ l1 ++ l2) as Hnotin.
  { intros Hin. apply (proj1 (Forall_forall _ _) Hall) in Hin
      as (o' & Ho' & Hne). congruence. }
  induction fuel as [| fuel IH]; intros i Hi Hfuel; [lia |].
  simpl. destruct (decide (i = length l1)) as [-> | Hlt].
  - rewrite list_lookup_middle by reflexivity.
    unfold bind at 1. rewrite (line_read_Some s p o get_number Hp).
    unfold get_number. rewrite String.eqb_refl.
    rewrite list_remove_middle
      by (intros Hin; apply Hnotin, elem_of_app; now left).
    unfold bind at 1, line_call, cancel_line.
    rewrite Hp. unfold bind at 1. rewrite Hcancel. unfold ret. simpl.
    apply cancel_loop_no_match.
    + eapply Forall_impl; [exact Hall |].
      intros q (oq & Hq & Hne). exists oq. split; [| exact Hne].
      simpl. rewrite list_lookup_insert_ne; [exact Hq |].
      intros ->. congruence.
    + rewrite length_app in *. simpl in Hfuel. lia.
  - assert (i < length l1)%nat as Hi' by lia.
    rewrite lookup_app_l by exact Hi'.
    destruct (lookup_lt_is_Some_2 l1 i Hi') as [q Hq]. rewrite Hq.
    assert (other_number s (number o) q) as (oq & Hoq & Hne).
    { apply (proj1 (Forall_forall _ _) Hall). apply elem_of_app. left.
      eapply list_elem_of_lookup_2, Hq. }
    unfold bind at 1. rewrite (line_read_Some s q oq get_number Hoq).
    unfold get_number. apply String.eqb_neq in Hne. rewrite Hne.
    apply IH; [lia |]. rewrite length_app in *. simpl in Hfuel |- *. lia.
Qed.




(** * More properties of the code *)

(** ** Calls on contracts that charge every minute *)

Lemma bill_call_per_minute (c : Contract) (call : Call) (l : loc)
    (h : list Bill) (b : Bill) :
  is_TermContract c = false → contract_bill c = Some l → h !! l = Some b →
  bill_call c call h
  = Return (c, <[l := add_billed_minutes (minutes_of (duration call)) b]> h).
Proof.
  intros Hc Hb Hl.
  destruct c as [st e bl tm sm | st bl | st bl bal]; [discriminate | |];
    simpl in Hb; subst bl; unfold bill_call, Contract_bill_call,
      PrepaidContract_bill_call; simpl; bill_run; reflexivity.
Qed.

(** Month-to-month and prepaid contracts: the calls of a list add their
    minutes to the billed minutes of the current bill and leave the rest of
    the bill and the contract as they are, so the total grows by the minutes
    times the rate. *)
Theorem bill_calls_per_minute (c : Contract) (calls : list Call) (l : loc)
    (h : list Bill) (b : Bill) :
  is_TermContract c = false → contract_bill c = Some l → h !! l = Some b →
  ∃ b' : Bill,
    bill_calls c calls h = Return (c, <[l := b']> h) ∧
    billed_min b' = billed_min b + total_minutes calls ∧
    free_min b' = free_min b ∧ fixed_cost b' = fixed_cost b ∧
    min_rate b' = min_rate b ∧ bill_type b' = bill_type b ∧
    (get_cost b' == get_cost b + inject_Z (total_minutes calls) * min_rate b)%Q.
Proof.
  intros Hc Hb. revert h b.
  induction calls as [| call calls IH]; intros h b Hl; simpl.
  - exists b. rewrite list_insert_id by exact Hl.
    repeat split; try reflexivity; [lia | ring].
  - unfold bind. rewrite (bill_call_per_minute c call l h b Hc Hb Hl).
    destruct (IH _ _ (heap_lookup_insert h l b
                        (add_billed_minutes (minutes_of (duration call)) b) Hl))
      as (b' & Hrun & Hbilled & Hfree & Hfix & Hrate & Htype & _).
    exists b'. rewrite Hrun, list_insert_insert_eq.
    simpl in Hbilled, Hfree, Hfix, Hrate, Htype.
    repeat split; try assumption; [lia |].
    unfold get_cost. rewrite Hbilled, Hfix, Hrate.
    rewrite !inject_Z_plus. ring.
Qed.

Lemma bill_calls_per_minute_witness :
  ∃ b' : Bill,
    bill_calls (MTMContract (Some (Date 2017 12 25)) (Some 0%nat))
      [mkCall "273-8255" "867-5309" (Date 2018 1 1) 50;
       mkCall "273-8255" "649-2568" (Date 2018 1 2) 61]
      [mkBill "MTM" 0.05 50 0 0]
    = Return (MTMContract (Some (Date 2017 12 25)) (Some 0%nat), [b']) ∧
    billed_min b' = 3 ∧ (get_cost b' == 50.15)%Q.
Proof.
  destruct (bill_calls_per_minute
              (MTMContract (Some (Date 2017 12 25)) (Some 0%nat))
              [mkCall "273-8255" "867-5309" (Date 2018 1 1) 50;
               mkCall "273-8255" "649-2568" (Date 2018 1 2) 61]
              0%nat [mkBill "MTM" 0.05 50 0 0] _ eq_refl eq_refl eq_refl)
    as (b' & Hrun & Hbilled & _ & _ & _ & _ & Hcost).
  exists b'. split; [exact Hrun |]. split; [exact Hbilled |].
  rewrite Hcost. reflexivity.
Defined.

(** ** Calls on a term contract *)

Lemma bill_calls_app (c : Contract) (calls1 calls2 : list Call)
    (h : list Bill) :
  bill_calls c (calls1 ++ calls2) h
  = bind (bill_calls c calls1) (λ c', bill_calls c' calls2) h.
Proof.
  revert c h. induction calls1 as [| call calls1 IH]; intros c h; simpl.
  - reflexivity.
  - unfold bind. destruct (bill_call c call h) as [[c1 h1] |];
      [| reflexivity].
    rewrite IH. reflexivity.
Qed.

Lemma total_minutes_nonneg (calls : list Call) :
  Forall (λ c, 0 ≤ duration c) calls → 0 ≤ total_minutes calls.
Proof.
  induction 1 as [| call calls Hd _ IH]; simpl; [lia |].
  pose proof (minutes_of_nonneg _ Hd). lia.
Qed.

(** One call that fits into the minutes left. *)
Lemma term_bill_call_within (st e : option date) (l : loc) (tm : Z)
    (sm : option (Z * Z)) (call : Call) (h : list Bill) (b : Bill) :
  h !! l = Some b →
  0 ≤ minutes_of (duration call) ≤ tm →
  ∃ b' : Bill,
    bill_call (TermContract st e (Some l) tm sm) call h
    = Return (TermContract st e (Some l) (tm - minutes_of (duration call)) sm,
              <[l := b']> h) ∧
    free_min b' = free_min b + minutes_of (duration call) ∧
    billed_min b' = billed_min b ∧ fixed_cost b' = fixed_cost b ∧
    min_rate b' = min_rate b ∧ bill_type b' = bill_type b.
Proof.
  intros Hl Hm. unfold bill_call, TermContract_bill_call.
  destruct (Z.ltb_spec 0 tm) as [Hpos | Hzero].
  - cbv zeta. destruct (Z.ltb_spec (tm - minutes_of (duration call)) 0);
      [lia |].
    eexists. split; [bill_run; bill_done |]. simpl. repeat split; reflexivity.
  - assert (tm = 0) as -> by lia.
    assert (minutes_of (duration call) = 0) as Hm0 by lia.
    simpl. eexists. split; [bill_run; rewrite Hm0; bill_done |]. simpl.
    repeat split; try reflexivity; lia.
Qed.

(** While the calls of a cycle fit into the included minutes, every minute
    is a free minute: the free minutes grow by the minutes of the calls, the
    minutes left shrink by them, and nothing is billed. *)
Theorem term_calls_within_allotment (st e : option date) (l : loc) (tm : Z)
    (sm : option (Z * Z)) (calls : list Call) (h : list Bill) (b : Bill) :
  h !! l = Some b →
  Forall (λ c, 0 ≤ duration c) calls →
  total_minutes calls ≤ tm →
  ∃ b' : Bill,
    bill_calls (TermContract st e (Some l) tm sm) calls h
    = Return (TermContract st e (Some l) (tm - total_minutes calls) sm,
              <[l := b']> h) ∧
    free_min b' = free_min b + total_minutes calls ∧
    billed_min b' = billed_min b ∧ fixed_cost b' = fixed_cost b ∧
    min_rate b' = min_rate b ∧ bill_type b' = bill_type b ∧
    get_cost b' = get_cost b.
Proof.
  intros Hl Hdur. revert tm h b Hl.
  induction Hdur as [| call calls Hd Hdur IH]; intros tm h b Hl Htot;
    cbn [bill_calls total_minutes].
  - exists b. rewrite list_insert_id by exact Hl. rewrite Z.sub_0_r.
    repeat split; try reflexivity; lia.
  - cbn [total_minutes] in Htot.
    pose proof (minutes_of_nonneg _ Hd) as Hm.
    pose proof (total_minutes_nonneg calls Hdur) as Hrest.
    destruct (term_bill_call_within st e l tm sm call h b Hl ltac:(lia))
      as (b1 & Hrun1 & Hfree1 & Hbilled1 & Hfix1 & Hrate1 & Htype1).
    unfold bind. rewrite Hrun1.
    destruct (IH (tm - minutes_of (duration call)) _ b1
                 (heap_lookup_insert h l b b1 Hl) ltac:(lia))
      as (b' & Hrun & Hfree & Hbilled & Hfix & Hrate & Htype & Hcost).
    exists b'. rewrite Hrun, list_insert_insert_eq.
    split; [do 3 f_equal; lia |].
    repeat split; try congruence; try lia.
    rewrite Hcost. unfold get_cost. now rewrite Hbilled1, Hfix1, Hrate1.
Qed.

Lemma term_calls_within_allotment_witness :
  ∃ b' : Bill,
    bill_calls
      (TermContract (Some (Date 2017 12 25)) (Some (Date 2019 6 25))
                    (Some 0%nat) 100 (Some (1, 2018)))
      [mkCall "867-5309" "649-2568" (Date 2018 1 1) 50;
       mkCall "867-5309" "273-8255" (Date 2018 1 2) 5940]
      [mkBill "TERM" 0.1 20 0 0]
    = Return (TermContract (Some (Date 2017 12 25)) (Some (Date 2019 6 25))
                           (Some 0%nat) 0 (Some (1, 2018)), [b']) ∧
    free_min b' = 100 ∧ billed_min b' = 0 ∧ (get_cost b' == 20)%Q.
Proof.
  destruct (term_calls_within_allotment
              (Some (Date 2017 12 25)) (Some (Date 2019 6 25)) 0%nat 100
              (Some (1, 2018))
              [mkCall "867-5309" "649-2568" (Date 2018 1 1) 50;
               mkCall "867-5309" "273-8255" (Date 2018 1 2) 5940]
              [mkBill "TERM" 0.1 20 0 0] _ eq_refl)
    as (b' & Hrun & Hfree & Hbilled & _ & _ & _ & Hcost).
  - repeat (apply Forall_cons_2; [simpl; lia |]). apply Forall_nil_2.
  - vm_compute. discriminate.
  - exists b'. split; [exact Hrun |]. split; [exact Hfree |].
    split; [exact Hbilled |]. rewrite Hcost. reflexivity.
Defined.

(** With no included minute left, every call is billed in full. *)
Lemma term_calls_exhausted (st e : option date) (l : loc)
    (sm : option (Z * Z)) (calls : list Call) (h : list Bill) (b : Bill) :
  h !! l = Some b →
  ∃ b' : Bill,
    bill_calls (TermContract st e (Some l) 0 sm) calls h
    = Return (TermContract st e (Some l) 0 sm, <[l := b']> h) ∧
    free_min b' = free_min b ∧
    billed_min b' = billed_min b + total_minutes calls ∧
    fixed_cost b' = fixed_cost b ∧
    min_rate b' = min_rate b ∧ bill_type b' = bill_type b.
Proof.
  revert h b. induction calls as [| call calls IH]; intros h b Hl; simpl.
  - exists b. rewrite list_insert_id by exact Hl.
    repeat split; try reflexivity; lia.
  - unfold bind, TermContract_bill_call. simpl.
    unfold bind, ret. bill_step. cbn beta iota.
    destruct (IH _ _ Hl0) as (b' & Hrun & Hfree & Hbilled & Hfix & Hrate & Htype).
    exists b'. rewrite Hrun, list_insert_insert_eq.
    simpl in Hfree, Hbilled, Hfix, Hrate, Htype.
    repeat split; try assumption; lia.
Qed.

(** Calls that use up the included minutes exactly, followed by more calls:
    the first are free, the others are billed in full at the rate of the
    bill. *)
Theorem term_calls_exact_then_billed (st e : option date) (l : loc) (tm : Z)
    (sm : option (Z * Z)) (calls1 calls2 : list Call)
    (h : list Bill) (b : Bill) :
  h !! l = Some b →
  Forall (λ c, 0 ≤ duration c) calls1 →
  total_minutes calls1 = tm →
  ∃ b' : Bill,
    bill_calls (TermContract st e (Some l) tm sm) (calls1 ++ calls2) h
    = Return (TermContract st e (Some l) 0 sm, <[l := b']> h) ∧
    free_min b' = free_min b + tm ∧
    billed_min b' = billed_min b + total_minutes calls2 ∧
    (get_cost b'
     == get_cost b + inject_Z (total_minutes calls2) * min_rate b)%Q.
Proof.
  intros Hl Hdur Htot.
  destruct (term_calls_within_allotment st e l tm sm calls1 h b Hl Hdur
              ltac:(lia))
    as (b1 & Hrun1 & Hfree1 & Hbilled1 & Hfix1 & Hrate1 & _ & _).
  destruct (term_calls_exhausted st e l sm calls2 _ b1
              (heap_lookup_insert h l b b1 Hl))
    as (b' & Hrun & Hfree & Hbilled & Hfix & Hrate & _).
  exists b'. rewrite bill_calls_app. unfold bind. rewrite Hrun1.
  rewrite Htot, Z.sub_diag, Hrun, list_insert_insert_eq.
  split; [reflexivity |]. split; [lia |]. split; [lia |].
  unfold get_cost. rewrite Hbilled, Hfix, Hrate, Hbilled1, Hfix1, Hrate1.
  rewrite inject_Z_plus. ring.
Qed.

Lemma term_calls_exact_then_billed_witness :
  ∃ b' : Bill,
    bill_calls
      (TermContract (Some (Date 2017 12 25)) (Some (Date 2019 6 25))
                    (Some 0%nat) 100 (Some (1, 2018)))
      ([mkCall "867-5309" "649-2568" (Date 2018 1 1) 6000]
       ++ [mkCall "867-5309" "273-8255" (Date 2018 1 2) 90])
      [mkBill "TERM" 0.1 20 0 0]
    = Return (TermContract (Some (Date 2017 12 25)) (Some (Date 2019 6 25))
                           (Some 0%nat) 0 (Some (1, 2018)), [b']) ∧
    free_min b' = 100 ∧ billed_min b' = 2 ∧ (get_cost b' == 20.2)%Q.
Proof.
  destruct (term_calls_exact_then_billed
              (Some (Date 2017 12 25)) (Some (Date 2019 6 25)) 0%nat 100
              (Some (1, 2018))
              [mkCall "867-5309" "649-2568" (Date 2018 1 1) 6000]
              [mkCall "867-5309" "273-8255" (Date 2018 1 2) 90]
              [mkBill "TERM" 0.1 20 0 0] _ eq_refl)
    as (b' & Hrun & Hfree & Hbilled & Hcost).
  - apply Forall_cons_2; [simpl; lia | apply Forall_nil_2].
  - reflexivity.
  - exists b'. split; [exact Hrun |]. split; [exact Hfree |].
    split; [exact Hbilled |]. rewrite Hcost. reflexivity.
Defined.

(** Once the minutes left are negative, no call changes anything. *)
Lemma term_calls_frozen (st e : option date) (bl : option loc) (tm : Z)
    (sm : option (Z * Z)) (calls : list Call) (h : list Bill) :
  tm < 0 →
  bill_calls (TermContract st e bl tm sm) calls h
  = Return (TermContract st e bl tm sm, h).
Proof.
  intros Htm. induction calls as [| call calls IH]; simpl; [reflexivity |].
  unfold bind, TermContract_bill_call.
  destruct (Z.ltb_spec 0 tm); [lia |].
  destruct (Z.eqb_spec tm 0); [lia |]. exact IH.
Qed.

(** A call longer than the minutes left counts in full as free minutes and
    its excess as billed minutes; the calls after it, until the next month,
    are recorded nowhere. *)
Theorem term_calls_after_overshoot (st e : option date) (l : loc) (tm : Z)
    (sm : option (Z * Z)) (call : Call) (calls : list Call)
    (h : list Bill) (b : Bill) :
  h !! l = Some b →
  0 < tm < minutes_of (duration call) →
  ∃ b' : Bill,
    bill_calls (TermContract st e (Some l) tm sm) (call :: calls) h
    = Return (TermContract st e (Some l) (tm - minutes_of (duration call)) sm,
              <[l := b']> h) ∧
    free_min b' = free_min b + minutes_of (duration call) ∧
    billed_min b' = billed_min b + (minutes_of (duration call) - tm) ∧
    fixed_cost b' = fixed_cost b.
Proof.
  intros Hl Htm.
  destruct (TermContract_bill_call_included st e l tm sm call h b Hl
              ltac:(lia))
    as (b' & Hrun & Hfree & Hbilled & Hfix).
  exists b'. cbn [bill_calls]. unfold bind. rewrite Hrun.
  rewrite term_calls_frozen by lia.
  split; [reflexivity |]. split; [exact Hfree |].
  split; [lia | exact Hfix].
Qed.

Lemma term_calls_after_overshoot_witness :
  ∃ b' : Bill,
    bill_calls
      (TermContract (Some (Date 2017 12 25)) (Some (Date 2019 6 25))
                    (Some 0%nat) 100 (Some (1, 2018)))
      [mkCall "867-5309" "649-2568" (Date 2018 1 1) 6060;
       mkCall "867-5309" "273-8255" (Date 2018 1 2) 600]
      [mkBill "TERM" 0.1 20 0 0]
    = Return (TermContract (Some (Date 2017 12 25)) (Some (Date 2019 6 25))
                           (Some 0%nat) (-1) (Some (1, 2018)), [b']) ∧
    free_min b' = 101 ∧ billed_min b' = 1.
Proof.
  destruct (term_calls_after_overshoot
              (Some (Date 2017 12 25)) (Some (Date 2019 6 25)) 0%nat 100
              (Some (1, 2018))
              (mkCall "867-5309" "649-2568" (Date 2018 1 1) 6060)
              [mkCall "867-5309" "273-8255" (Date 2018 1 2) 600]
              [mkBill "TERM" 0.1 20 0 0] _ eq_refl)
    as (b' & Hrun & Hfree & Hbilled & _).
  - vm_compute. split; reflexivity.
  - exists b'. split; [exact Hrun |]. split; [exact Hfree | exact Hbilled].
Defined.

(** ** Cancelling a term contract *)

(** [TermContract.cancel_contract] orders the last cycle and the cycle of
    the end date month first.  When the last cycle is the greater one, the
    bill gets 300 back and the contract loses its dates; when it is the
    smaller one, the contract only loses its dates; when both are the same
    cycle, nothing happens at all and the contract keeps its dates.  [None]
    is returned each time. *)
Theorem term_cancel_by_cycle (st : option date) (e : date) (l : loc)
    (tm sm sy : Z) (h : list Bill) (b : Bill) :
  h !! l = Some b →
  let c := TermContract st (Some e) (Some l) tm (Some (sm, sy)) in
  let closed := TermContract None None (Some l) tm (Some (sm, sy)) in
  (sm > month e ∨ (sm = month e ∧ sy > year e) →
   ∃ b' : Bill,
     cancel_contract c h = Return ((None, closed), <[l := b']> h) ∧
     (fixed_cost b' == fixed_cost b - 300)%Q ∧
     billed_min b' = billed_min b ∧ free_min b' = free_min b ∧
     min_rate b' = min_rate b) ∧
  (sm < month e ∨ (sm = month e ∧ sy < year e) →
   cancel_contract c h = Return ((None, closed), h)) ∧
  (sm = month e ∧ sy = year e →
   cancel_contract c h = Return ((None, c), h)).
Proof.
  intros Hl c closed. subst c closed.
  unfold cancel_contract, TermContract_cancel_contract, tuple_gtb, tuple_ltb.
  cbn [fst snd deref].
  split; [| split]; intros Hcyc; unfold bind at 1, ret at 1; cbn beta iota;
    repeat match goal with
           | |- context [?x <? ?y] => destruct (Z.ltb_spec x y)
           | |- context [?x =? ?y] => destruct (Z.eqb_spec x y)
           end;
    cbn [orb andb]; try (exfalso; lia).
  all: try (eexists; split; [bill_run; reflexivity |]; simpl;
            repeat split; reflexivity).
  all: try (bill_run; reflexivity).
Qed.

Lemma term_cancel_by_cycle_witness :
  let c := TermContract (Some (Date 2017 12 25)) (Some (Date 2019 6 25))
                        (Some 0%nat) 100 (Some (6, 2019)) in
  cancel_contract c [mkBill "TERM" 0.1 20 0 0]
  = Return ((None, c), [mkBill "TERM" 0.1 20 0 0]).
Proof.
  cbv zeta.
  apply (term_cancel_by_cycle (Some (Date 2017 12 25)) (Date 2019 6 25)
           0%nat 100 6 2019 [mkBill "TERM" 0.1 20 0 0] _ eq_refl).
  split; reflexivity.
Defined.

(** ** Cancelling before the first month, and cancelling twice *)

(** A contract cancelled before any [new_month]: a term contract raises
    [TypeError] (its last cycle is still the integer 0), a month-to-month
    contract and a prepaid contract with a positive balance raise
    [AttributeError] (there is no bill), and a prepaid contract without a
    positive balance returns 0.0. *)
Theorem cancel_before_first_month (s e : date) (balance : Z)
    (h : list Bill) :
  cancel_contract (TermContract_init s e) h = Raise TypeError ∧
  cancel_contract (MTMContract_init s) h = Raise AttributeError ∧
  (balance > 0 →
   cancel_contract (PrepaidContract_init s balance) h = Raise AttributeError) ∧
  (balance ≤ 0 →
   cancel_contract (PrepaidContract_init s balance) h
   = Return ((Some 0.0%Q, PrepaidContract None None balance), h)).
Proof.
  split; [reflexivity |]. split; [reflexivity |].
  unfold cancel_contract, PrepaidContract_init, PrepaidContract_cancel_contract.
  split; intros Hb.
  - destruct (Z.ltb_spec 0 balance); [reflexivity | lia].
  - destruct (Z.ltb_spec 0 balance); [lia | reflexivity].
Qed.

Lemma cancel_before_first_month_witness :
  cancel_contract (PrepaidContract_init (Date 2017 12 25) 100) []
  = Raise AttributeError ∧
  cancel_contract (PrepaidContract_init (Date 2017 12 25) (-20)) []
  = Return ((Some 0.0%Q, PrepaidContract None None (-20)), []).
Proof.
  split.
  - apply (cancel_before_first_month (Date 2017 12 25) (Date 2019 6 25) 100 []).
    lia.
  - apply (cancel_before_first_month (Date 2017 12 25) (Date 2019 6 25)
             (-20) []).
    lia.
Defined.

(** Cancelling is not idempotent.  A term contract that was cancelled
    outside the cycle of its end date has lost its dates: cancelling it again
    and advancing it to a month both raise [AttributeError].  A
    month-to-month contract can be cancelled again and returns the same
    total.  A prepaid contract with a positive balance adds the balance to the
    fixed cost once more, so the second total is the first plus the
    balance. *)
Theorem cancel_twice (l : loc) (h : list Bill) (b : Bill) :
  h !! l = Some b →
  (∀ (st e : option date) (tm : Z) (sm : option (Z * Z)) (r : option Q)
     (c' : Contract) (h' : list Bill) (m y : Z),
     cancel_contract (TermContract st e (Some l) tm sm) h
     = Return ((r, c'), h') →
     c' ≠ TermContract st e (Some l) tm sm →
     cancel_contract c' h' = Raise AttributeError ∧
     new_month c' m y l h' = Raise AttributeError) ∧
  (∀ st : option date,
     ∃ c' : Contract,
       cancel_contract (MTMContract st (Some l)) h
       = Return ((Some (get_cost b), c'), h) ∧
       cancel_contract c' h = Return ((Some (get_cost b), c'), h)) ∧
  (∀ (st : option date) (balance : Z),
     balance > 0 →
     ∃ (c' : Contract) (h1 h2 : list Bill) (total1 total2 : Q),
       cancel_contract (PrepaidContract st (Some l) balance) h
       = Return ((Some total1, c'), h1) ∧
       cancel_contract c' h1 = Return ((Some total2, c'), h2) ∧
       (total1 == get_cost b + inject_Z balance)%Q ∧
       (total2 == total1 + inject_Z balance)%Q).
Proof.
  intros Hl. split; [| split].
  - intros st e tm sm r c' h' m y.
    unfold cancel_contract at 1, TermContract_cancel_contract, deref, bind,
      ret, raise.
    destruct e as [e |]; [| discriminate].
    destruct sm as [saved |]; [| discriminate].
    destruct (tuple_gtb saved (month e, year e)).
    + bill_run. intros [= _ <- <-] _. split; [reflexivity |].
      unfold new_month, TermContract_new_month. bill_run. reflexivity.
    + destruct (tuple_ltb saved (month e, year e)).
      * bill_run. intros [= _ <- <-] _. split; [reflexivity |].
        unfold new_month, TermContract_new_month. bill_run. reflexivity.
      * intros [= _ <- _] Hne. congruence.
  - intros st. exists (MTMContract None (Some l)).
    unfold cancel_contract, Contract_cancel_contract. simpl.
    bill_run. split; reflexivity.
  - intros st balance Hb.
    assert ((0 <? balance) = true) as Hlt by (apply Z.ltb_lt; lia).
    exists (PrepaidContract None (Some l) balance).
    unfold cancel_contract, PrepaidContract_cancel_contract. rewrite Hlt.
    pose proof (heap_lookup_insert h l b
                  (add_fixed_cost (inject_Z balance) b) Hl) as Hl1.
    eexists _, _, _, _.
    split; [bill_run; reflexivity |].
    split; [bill_run; reflexivity |].
    unfold get_cost. simpl. split; ring.
Qed.

Lemma cancel_twice_witness :
  ∃ (c' : Contract) (h1 h2 : list Bill) (total1 total2 : Q),
    cancel_contract (PrepaidContract (Some (Date 2017 12 25)) (Some 0%nat) 75)
                    [mkBill "PREPAID" 0.025 (-100) 0 0]
    = Return ((Some total1, c'), h1) ∧
    cancel_contract c' h1 = Return ((Some total2, c'), h2) ∧
    (total1 == -25)%Q ∧ (total2 == 50)%Q.
Proof.
  destruct (proj2 (proj2 (cancel_twice 0%nat
                            [mkBill "PREPAID" 0.025 (-100) 0 0] _ eq_refl))
              (Some (Date 2017 12 25)) 75 ltac:(lia))
    as (c' & h1 & h2 & t1 & t2 & Hrun1 & Hrun2 & Ht1 & Ht2).
  exists c', h1, h2, t1, t2.
  split; [exact Hrun1 |]. split; [exact Hrun2 |].
  split; [rewrite Ht1 | rewrite Ht2, Ht1]; reflexivity.
Defined.

(** ** What closing a contract in its first month returns *)

Section Settlement.
Local Open Scope py_scope.

(** A month-to-month contract closed in a month returns the fee of 50 plus
    0.05 for each minute of the month's calls. *)
Theorem mtm_month_settlement (st : option date) (bl : option loc) (m y : Z)
    (l : loc) (calls : list Call) (h : list Bill) :
  h !! l = Some Bill_init →
  ∃ (total : Q) (h' : list Bill),
    month_then_cancel (MTMContract st bl) m y l calls h
    = Return ((Some total, MTMContract None (Some l)), h') ∧
    (total == 50 + inject_Z (total_minutes calls) * 0.05)%Q.
Proof.
  intros Hl. unfold month_then_cancel, new_month, MTMContract_new_month.
  bill_run.
  destruct (bill_calls_per_minute (MTMContract st (Some l)) calls l _ _
              eq_refl eq_refl Hl1)
    as (b' & Hrun & Hbilled & _ & Hfix & Hrate & _ & _).
  rewrite Hrun.
  unfold cancel_contract, Contract_cancel_contract. simpl.
  pose proof (heap_lookup_insert _ l _ b' Hl1) as Hl'.
  bill_run.
  eexists _, _. split; [reflexivity |].
  unfold get_cost. rewrite Hbilled, Hfix, Hrate. simpl.
  unfold MTM_MINS_COST, MTM_MONTHLY_FEE. rewrite Z.add_0_l. lra.
Qed.

Lemma mtm_month_settlement_witness :
  ∃ (total : Q) (h' : list Bill),
    month_then_cancel (MTMContract_init (Date 2017 12 25)) 1 2018 0%nat
      [mkCall "273-8255" "867-5309" (Date 2018 1 1) 50] [Bill_init]
    = Return ((Some total, MTMContract None (Some 0%nat)), h') ∧
    (total == 50.05)%Q.
Proof.
  destruct (mtm_month_settlement (Some (Date 2017 12 25)) None 1 2018 0%nat
              [mkCall "273-8255" "867-5309" (Date 2018 1 1) 50]
              [Bill_init] eq_refl)
    as (total & h' & Hrun & Htotal).
  exists total, h'. split; [exact Hrun |]. rewrite Htotal. reflexivity.
Defined.

(** A prepaid contract closed in its first month.  With a balance above 25
    the month's top-up leaves a positive balance, which is added back: the
    total returned is -25 plus 0.025 for each minute, whatever the balance
    was.  With a balance of 25 or less, 0.0 is returned, whatever the calls
    were. *)
Theorem prepaid_month_settlement (st : option date) (bl : option loc)
    (balance : Z) (m y : Z) (l : loc) (calls : list Call) (h : list Bill) :
  h !! l = Some Bill_init →
  ∃ (total : Q) (c' : Contract) (h' : list Bill),
    month_then_cancel (PrepaidContract st bl balance) m y l calls h
    = Return ((Some total, c'), h') ∧
    (25 < balance →
     (total == -25 + inject_Z (total_minutes calls) * 0.025)%Q) ∧
    (balance ≤ 25 → total = 0.0%Q).
Proof.
  intros Hl. unfold month_then_cancel, new_month, PrepaidContract_new_month.
  bill_run.
  set (balance' := if -10 <? balance then balance - 25 else balance).
  destruct (bill_calls_per_minute (PrepaidContract st (Some l) balance')
              calls l _ _ eq_refl eq_refl Hl1)
    as (b' & Hrun & Hbilled & _ & Hfix & Hrate & _ & _).
  rewrite Hrun.
  unfold cancel_contract, PrepaidContract_cancel_contract.
  pose proof (heap_lookup_insert _ l _ b' Hl1) as Hl'.
  destruct (Z.ltb_spec 0 balance') as [Hpos | Hneg].
  - bill_run. eexists _, _, _. split; [reflexivity |].
    assert (balance' = balance - 25 ∧ 25 < balance) as [Hb Hgt].
    { subst balance'. destruct (Z.ltb_spec (-10) balance); lia. }
    split; [| lia]. intros _.
    unfold get_cost. simpl. rewrite Hbilled, Hfix, Hrate, Hb. simpl.
    unfold PREPAID_MINS_COST. rewrite Z.mul_comm.
    change (-1 * balance) with (- balance).
    rewrite inject_Z_opp. unfold Z.sub. rewrite inject_Z_plus, Z.add_0_l.
    change (inject_Z (- (25))) with (-25)%Q. lra.
  - eexists _, _, _. split; [reflexivity |].
    split; [| reflexivity].
    intros Hgt. exfalso. subst balance'.
    destruct (Z.ltb_spec (-10) balance); lia.
Qed.

Lemma prepaid_month_settlement_witness :
  ∃ (total : Q) (c' : Contract) (h' : list Bill),
    month_then_cancel (PrepaidContract_init (Date 2017 12 25) 100) 1 2018
      0%nat [mkCall "649-2568" "273-8255" (Date 2018 1 1) 50] [Bill_init]
    = Return ((Some total, c'), h') ∧
    (total == -24.975)%Q.
Proof.
  destruct (prepaid_month_settlement (Some (Date 2017 12 25)) None 100 1 2018
              0%nat [mkCall "649-2568" "273-8255" (Date 2018 1 1) 50]
              [Bill_init] eq_refl)
    as (total & c' & h' & Hrun & Hpos & _).
  exists total, c', h'. split; [exact Hrun |].
  rewrite (Hpos ltac:(lia)). reflexivity.
Defined.

End Settlement.

(** ** The call history *)

Lemma dict_get_set_eq {V} (key : Z * Z) (v : V) (d : list ((Z * Z) * V)) :
  dict_get key (dict_set key v d) = Some v.
Proof.
  induction d as [| [k v'] d IH]; simpl.
  - now rewrite decide_True.
  - destruct (decide (k = key)) as [-> | Hne]; simpl.
    + now rewrite decide_True.
    + now rewrite decide_False.
Qed.

Lemma dict_get_set_ne {V} (key key' : Z * Z) (v : V)
    (d : list ((Z * Z) * V)) :
  key ≠ key' → dict_get key' (dict_set key v d) = dict_get key' d.
Proof.
  intros Hne. induction d as [| [k v'] d IH]; simpl.
  - now rewrite decide_False.
  - destruct (decide (k = key)) as [-> | Hk]; simpl.
    + now rewrite !decide_False.
    + destruct (decide (k = key')); [reflexivity | exact IH].
Qed.

Lemma register_outgoing_call_dict (self : CallHistory) (call : Call) :
  register_outgoing_call self call
  = mkCallHistory (dict_register call (outgoing_calls self))
                  (incoming_calls self).
Proof.
  unfold register_outgoing_call, dict_register, get_bill_date. cbv zeta.
  destruct (dict_in _ _); reflexivity.
Qed.

Lemma register_incoming_call_dict (self : CallHistory) (call : Call) :
  register_incoming_call self call
  = mkCallHistory (outgoing_calls self)
                  (dict_register call (incoming_calls self)).
Proof.
  unfold register_incoming_call, dict_register, get_bill_date. cbv zeta.
  destruct (dict_in _ _); reflexivity.
Qed.

Lemma calls_of_register (call : Call) (d : list ((Z * Z) * list Call))
    (cycle : Z * Z) :
  calls_of (dict_register call d) cycle
  = calls_of d cycle ++ (if in_cycle cycle call then [call] else []).
Proof.
  unfold calls_of, dict_register, dict_append, dict_in, in_cycle.
  destruct (dict_get (get_bill_date call) d) as [calls |] eqn:Hget; simpl.
  - case_bool_decide as Hc.
    + subst cycle. now rewrite dict_get_set_eq, Hget.
    + rewrite dict_get_set_ne by exact Hc. now rewrite app_nil_r.
  - rewrite dict_get_set_eq. case_bool_decide as Hc.
    + subst cycle. now rewrite dict_get_set_eq, Hget.
    + rewrite !dict_get_set_ne by exact Hc. now rewrite app_nil_r.
Qed.

Lemma get_monthly_history_calls_of (self : CallHistory) (m y : Z) :
  get_monthly_history self (Some m) (Some y)
  = (calls_of (outgoing_calls self) (m, y),
     calls_of (incoming_calls self) (m, y)).
Proof.
  unfold get_monthly_history, calls_of, dict_in.
  destruct (dict_get (m, y) (outgoing_calls self)),
           (dict_get (m, y) (incoming_calls self)); reflexivity.
Qed.

Lemma history_by_month_from (self : CallHistory) (evs : list line_event)
    (m y : Z) :
  get_monthly_history (foldl register_event self evs) (Some m) (Some y)
  = ((get_monthly_history self (Some m) (Some y)).1
       ++ filter (in_cycle (m, y)) (made evs),
     (get_monthly_history self (Some m) (Some y)).2
       ++ filter (in_cycle (m, y)) (received evs)).
Proof.
  revert self. induction evs as [| ev evs IH]; intros self.
  - simpl. rewrite !app_nil_r.
    now destruct (get_monthly_history self (Some m) (Some y)).
  - cbn [foldl]. rewrite IH. rewrite !get_monthly_history_calls_of.
    cbn [fst snd]. destruct ev as [call | call]; cbn [register_event].
    + rewrite register_outgoing_call_dict. cbn [outgoing_calls incoming_calls].
      rewrite calls_of_register. unfold made, received.
      cbn [omap list_omap]. fold (made evs) (received evs).
      rewrite filter_cons.
      destruct (in_cycle (m, y) call); cbn; now rewrite <- app_assoc.
    + rewrite register_incoming_call_dict. cbn [outgoing_calls incoming_calls].
      rewrite calls_of_register. unfold made, received.
      cbn [omap list_omap]. fold (made evs) (received evs).
      rewrite filter_cons.
      destruct (in_cycle (m, y) call); cbn; now rewrite <- app_assoc.
Qed.

(** The history of a phone line asked for a cycle gives back the calls made
    and the calls received in that cycle, each in the order they were
    registered; a cycle without calls gives two empty lists. *)
Theorem history_by_month (evs : list line_event) (m y : Z) :
  get_monthly_history (foldl register_event CallHistory_init evs)
                      (Some m) (Some y)
  = (filter (in_cycle (m, y)) (made evs),
     filter (in_cycle (m, y)) (received evs)).
Proof.
  rewrite history_by_month_from. reflexivity.
Qed.

Lemma dict_in_get {V} (key : Z * Z) (d : list ((Z * Z) * V)) :
  dict_in key d = true ↔ key ∈ d.*1.
Proof.
  unfold dict_in. induction d as [| [k v] d IH]; simpl.
  - split; [discriminate | intros H; inversion H].
  - destruct (decide (k = key)) as [-> | Hne].
    + split; [intros _; apply elem_of_cons; now left | reflexivity].
    + rewrite IH, elem_of_cons.
      split; [now right | intros [? | ?]; [congruence | assumption]].
Qed.

Lemma dict_set_keys {V} (key : Z * Z) (v : V) (d : list ((Z * Z) * V)) :
  (dict_set key v d).*1 = if dict_in key d then d.*1 else d.*1 ++ [key].
Proof.
  unfold dict_in. induction d as [| [k v'] d IH]; csimpl; [reflexivity |].
  destruct (decide (k = key)) as [-> | Hne]; csimpl; [reflexivity |].
  rewrite IH. now destruct (dict_get key d).
Qed.

Lemma dict_register_keys (call : Call) (d : list ((Z * Z) * list Call)) :
  NoDup d.*1 → NoDup (dict_register call d).*1.
Proof.
  intros Hnd. unfold dict_register, dict_append.
  destruct (dict_in (get_bill_date call) d) eqn:Hin; simpl.
  - unfold dict_in in Hin.
    destruct (dict_get (get_bill_date call) d) eqn:Hget; [| discriminate].
    rewrite dict_set_keys. unfold dict_in. now rewrite Hget.
  - rewrite dict_get_set_eq, !dict_set_keys, Hin.
    replace (dict_in (get_bill_date call)
               (dict_set (get_bill_date call) [] d)) with true
      by (unfold dict_in; now rewrite dict_get_set_eq).
    apply NoDup_app. split; [exact Hnd |]. split.
    + intros k Hk Hk'. apply list_elem_of_singleton in Hk'. subst k.
      apply dict_in_get in Hk. congruence.
    + apply NoDup_singleton.
Qed.

Lemma dict_set_values (key : Z * Z) (calls calls0 : list Call)
    (d : list ((Z * Z) * list Call)) :
  dict_get key d = Some calls0 →
  ∃ before after : list Call,
    concat d.*2 = before ++ calls0 ++ after ∧
    concat (dict_set key calls d).*2 = before ++ calls ++ after.
Proof.
  induction d as [| [k v] d IH]; csimpl; [discriminate |].
  destruct (decide (k = key)) as [-> | Hne]; csimpl.
  - intros [= ->]. exists [], (concat d.*2). split; reflexivity.
  - intros Hget. destruct (IH Hget) as (before & after & H1 & H2).
    exists (v ++ before), after. rewrite H1, H2, <- !app_assoc.
    split; reflexivity.
Qed.

Lemma dict_set_values_new {V} (key : Z * Z) (v : V)
    (d : list ((Z * Z) * V)) :
  dict_get key d = None → dict_set key v d = d ++ [(key, v)].
Proof.
  induction d as [| [k v'] d IH]; csimpl; [reflexivity |].
  destruct (decide (k = key)); [discriminate |].
  intros Hget. now rewrite IH.
Qed.

Lemma dict_register_values (call : Call) (d : list ((Z * Z) * list Call)) :
  concat (dict_register call d).*2 ≡ₚ concat d.*2 ++ [call].
Proof.
  unfold dict_register, dict_append, dict_in.
  destruct (dict_get (get_bill_date call) d) as [calls0 |] eqn:Hget; csimpl.
  - destruct (dict_set_values (get_bill_date call) (calls0 ++ [call])
                calls0 d Hget) as (before & after & -> & ->).
    rewrite <- !app_assoc. apply Permutation_app_head.
    apply Permutation_app_head. apply Permutation_app_comm.
  - rewrite dict_get_set_eq.
    destruct (dict_set_values (get_bill_date call) ([] ++ [call]) []
                (dict_set (get_bill_date call) [] d)
                (dict_get_set_eq _ _ _)) as (before & after & H1 & ->).
    rewrite (dict_set_values_new _ _ _ Hget) in H1.
    rewrite fmap_app, concat_app in H1. csimpl in H1.
    rewrite app_nil_r in H1. rewrite H1. csimpl.
    rewrite <- !app_assoc. apply Permutation_app_head.
    csimpl. apply (Permutation_app_comm [call] after).
Qed.

Lemma flat_map_dict_get (d d0 : list ((Z * Z) * list Call)) :
  (∀ entry, entry ∈ d0 → dict_get entry.1 d = Some entry.2) →
  flat_map (λ entry, default [] (dict_get entry.1 d)) d0 = concat d0.*2.
Proof.
  induction d0 as [| entry d0 IH]; intros Hget; csimpl; [reflexivity |].
  rewrite (Hget entry) by (apply elem_of_cons; now left). csimpl.
  f_equal. apply IH. intros e He. apply Hget, elem_of_cons. now right.
Qed.

Lemma all_calls_concat (d : list ((Z * Z) * list Call)) :
  NoDup d.*1 → all_calls d = concat d.*2.
Proof.
  unfold all_calls. intros Hnd. apply flat_map_dict_get.
  induction d as [| [k v] d IH]; intros entry Hin; [inversion Hin |].
  csimpl in Hnd. apply NoDup_cons in Hnd as [Hk Hnd].
  apply elem_of_cons in Hin as [-> | Hin]; simpl.
  - now rewrite decide_True.
  - rewrite decide_False; [now apply IH |].
    intros ->. apply Hk. apply list_elem_of_fmap. now exists entry.
Qed.

Lemma history_all_from (self : CallHistory) (evs : list line_event) :
  NoDup (outgoing_calls self).*1 → NoDup (incoming_calls self).*1 →
  let self' := foldl register_event self evs in
  NoDup (outgoing_calls self').*1 ∧ NoDup (incoming_calls self').*1 ∧
  concat (outgoing_calls self').*2
    ≡ₚ concat (outgoing_calls self).*2 ++ made evs ∧
  concat (incoming_calls self').*2
    ≡ₚ concat (incoming_calls self).*2 ++ received evs.
Proof.
  revert self. induction evs as [| ev evs IH]; intros self Ho Hi; cbn zeta.
  - simpl. rewrite !app_nil_r. done.
  - cbn [foldl]. destruct ev as [call | call]; cbn [register_event].
    + rewrite register_outgoing_call_dict.
      destruct (IH (mkCallHistory (dict_register call (outgoing_calls self))
                                  (incoming_calls self))
                   (dict_register_keys call _ Ho) Hi)
        as (Ho' & Hi' & Hout & Hin).
      cbn [outgoing_calls incoming_calls] in Hout, Hin.
      split; [exact Ho' |]. split; [exact Hi' |].
      split; [| exact Hin].
      rewrite Hout, dict_register_values, <- app_assoc. reflexivity.
    + rewrite register_incoming_call_dict.
      destruct (IH (mkCallHistory (outgoing_calls self)
                                  (dict_register call (incoming_calls self)))
                   Ho (dict_register_keys call _ Hi))
        as (Ho' & Hi' & Hout & Hin).
      cbn [outgoing_calls incoming_calls] in Hout, Hin.
      split; [exact Ho' |]. split; [exact Hi' |].
      split; [exact Hout |].
      rewrite Hin, dict_register_values, <- app_assoc. reflexivity.
Qed.

(** Asked without a month or without a year, the history gives every call
    made and every call received, none lost and none twice (grouped by
    cycle). *)
Theorem history_all (evs : list line_event) (month' year' : option Z) :
  month' = None ∨ year' = None →
  let self := foldl register_event CallHistory_init evs in
  (get_monthly_history self month' year').1 ≡ₚ made evs ∧
  (get_monthly_history self month' year').2 ≡ₚ received evs.
Proof.
  intros Hnone. cbn zeta.
  destruct (history_all_from CallHistory_init evs)
    as (Ho & Hi & Hout & Hin); [apply NoDup_nil_2 | apply NoDup_nil_2 |].
  cbn zeta in *. simpl in Hout, Hin.
  assert (get_monthly_history (foldl register_event CallHistory_init evs)
            month' year'
          = (all_calls (outgoing_calls
                          (foldl register_event CallHistory_init evs)),
             all_calls (incoming_calls
                          (foldl register_event CallHistory_init evs))))
    as ->.
  { unfold get_monthly_history.
    destruct Hnone as [-> | ->]; [reflexivity | now destruct month']. }
  cbn [fst snd]. rewrite !all_calls_concat by assumption.
  split; assumption.
Qed.

Lemma history_all_witness :
  let jan := mkCall "867-5309" "649-2568" (Date 2018 1 1) 50 in
  let feb := mkCall "867-5309" "273-8255" (Date 2018 2 1) 10 in
  let jan' := mkCall "867-5309" "273-8255" (Date 2018 1 9) 70 in
  let self := foldl register_event CallHistory_init
                    [MakeCall jan; MakeCall feb; MakeCall jan'] in
  (get_monthly_history self (Some 1) None).1 ≡ₚ [jan; feb; jan'] ∧
  (get_monthly_history self (Some 1) None).1 = [jan; jan'; feb].
Proof.
  intros jan feb jan' self. split; [| reflexivity].
  apply (history_all [MakeCall jan; MakeCall feb; MakeCall jan'] (Some 1) None).
  now right.
Defined.

(** ** Which bills a method can change *)

Lemma frame_refl (ob : option loc) (h : list Bill) : frame ob h h.
Proof. split; reflexivity. Qed.

Lemma frame_trans (ob : option loc) (h1 h2 h3 : list Bill) :
  frame ob h1 h2 → frame ob h2 h3 → frame ob h1 h3.
Proof.
  intros [Hlen1 H1] [Hlen2 H2]. split; [congruence |].
  intros l Hl. now rewrite H2, H1.
Qed.

Lemma bill_update_frame (ob : option loc) (f : Bill → Bill)
    (h h' : list Bill) (u : unit) :
  bill_update ob f h = Return (u, h') →
  frame ob h h' ∧ ∃ l, ob = Some l ∧ (l < length h)%nat.
Proof.
  unfold bill_update. destruct ob as [l |]; [| discriminate].
  destruct (h !! l) as [b |] eqn:Hl; [| discriminate].
  intros [= _ <-]. split.
  - split; [apply length_insert |].
    intros l' Hne. apply list_lookup_insert_ne. congruence.
  - exists l. split; [reflexivity |]. eapply lookup_lt_Some, Hl.
Qed.

Lemma bill_read_inv {A} (ob : option loc) (f : Bill → A)
    (h h' : list Bill) (a : A) :
  bill_read ob f h = Return (a, h') → h' = h.
Proof.
  unfold bill_read. destruct ob as [l |]; [| discriminate].
  destruct (h !! l); [| discriminate]. now intros [= _ <-].
Qed.

(** Takes apart a run [H : ... = Return _] of updates and reads. *)
Ltac run_inv H :=
  repeat
    (unfold bind, ret, raise, deref in H; cbn beta iota in H;
     match type of H with
     | context [bill_update ?o ?f ?h] =>
         let E := fresh "E" in
         destruct (bill_update o f h) as [[[] ?] |] eqn:E;
         [apply bill_update_frame in E as [? (? & ? & ?)] | discriminate H]
     | context [bill_read ?o ?f ?h] =>
         let E := fresh "E" in
         destruct (bill_read o f h) as [[? ?] |] eqn:E;
         [apply bill_read_inv in E; subst | discriminate H]
     | context [if ?c then _ else _] => destruct c eqn:?
     | context [match ?o with Some _ => _ | None => _ end] =>
         destruct o eqn:?
     end);
  unfold bind, ret, raise, deref in H; cbn beta iota in H;
  try discriminate H; simplify_eq.

Lemma new_month_frame (c c' : Contract) (m y : Z) (l : loc)
    (h h' : list Bill) :
  new_month c m y l h = Return (c', h') →
  contract_bill c' = Some l ∧ (l < length h)%nat ∧ frame (Some l) h h'.
Proof.
  intros Hrun.
  destruct c as [st e bl tm sm | st bl | st bl bal];
    unfold new_month, TermContract_new_month, MTMContract_new_month,
      PrepaidContract_new_month in Hrun;
    run_inv Hrun;
    (split; [reflexivity |]); (split; [lia |]);
    repeat (eapply frame_trans; [eassumption |]); apply frame_refl.
Qed.

Lemma bill_call_frame (c c' : Contract) (call : Call) (h h' : list Bill) :
  bill_call c call h = Return (c', h') →
  contract_bill c' = contract_bill c ∧ frame (contract_bill c) h h'.
Proof.
  intros Hrun.
  destruct c as [st e bl tm sm | st bl | st bl bal];
    unfold bill_call, TermContract_bill_call, Contract_bill_call,
      PrepaidContract_bill_call in Hrun; cbn [contract_bill] in *;
    run_inv Hrun; (split; [reflexivity |]);
    repeat (eapply frame_trans; [eassumption |]); apply frame_refl.
Qed.

Lemma cancel_contract_frame (c c' : Contract) (r : option Q)
    (h h' : list Bill) :
  cancel_contract c h = Return ((r, c'), h') →
  contract_bill c' = contract_bill c ∧ frame (contract_bill c) h h'.
Proof.
  intros Hrun.
  destruct c as [st e bl tm sm | st bl | st bl bal];
    unfold cancel_contract, TermContract_cancel_contract,
      Contract_cancel_contract, PrepaidContract_cancel_contract in Hrun;
    cbn [contract_bill] in *;
    run_inv Hrun; (split; [reflexivity |]);
    repeat (eapply frame_trans; [eassumption |]); apply frame_refl.
Qed.

(** ** Phone lines: a new cycle *)

(** [PhoneLine.new_month] for a cycle that has no bill yet creates one bill,
    stores it under the cycle and hands it to the contract: the bill the
    contract writes to from then on is the stored one.  The bills that
    existed are not touched. *)
Theorem PhoneLine_new_month_new_cycle (self self' : PhoneLine) (m y : Z)
    (h h' : list Bill) :
  bills self !! (m, y) = None →
  PhoneLine_new_month self m y h = Return (self', h') →
  bills self' = <[(m, y) := length h]> (bills self) ∧
  contract_bill (contract self') = Some (length h) ∧
  number self' = number self ∧
  length h' = S (length h) ∧
  ∀ l b, h !! l = Some b → h' !! l = Some b.
Proof.
  intros Hnew. unfold PhoneLine_new_month. rewrite Hnew.
  unfold bind, bill_alloc, ret.
  destruct (new_month (contract self) m y (length h) (h ++ [Bill_init]))
    as [[c h1] |] eqn:Hrun; [| discriminate].
  intros [= <- <-]. cbn [bills contract number].
  destruct (new_month_frame _ _ _ _ _ _ _ Hrun) as (Hbill & _ & Hlen & Hframe).
  split; [reflexivity |]. split; [exact Hbill |]. split; [reflexivity |].
  split; [rewrite Hlen, length_app; simpl; lia |].
  intros l b Hl. rewrite Hframe.
  - now apply lookup_app_l_Some.
  - intros [= <-]. apply lookup_lt_Some in Hl. lia.
Qed.

Lemma PhoneLine_new_month_new_cycle_witness :
  let self := mkPhoneLine "273-8255"
                (MTMContract (Some (Date 2017 12 25)) (Some 0%nat))
                (<[(12, 2017) := 0%nat]> ∅) in
  ∃ (self' : PhoneLine) (h' : list Bill),
    PhoneLine_new_month self 1 2018 [mkBill "MTM" 0.05 50 0 3]
    = Return (self', h') ∧
    bills self' = <[(1, 2018) := 1%nat]> (bills self) ∧
    contract_bill (contract self') = Some 1%nat ∧
    h' !! 0%nat = Some (mkBill "MTM" 0.05 50 0 3).
Proof.
  intros self.
  assert (bills self !! (1, 2018) = None) as Hnew
    by (vm_compute; reflexivity).
  destruct (PhoneLine_new_month self 1 2018 [mkBill "MTM" 0.05 50 0 3])
    as [[self' h'] |] eqn:Hrun;
    [| exfalso; vm_compute in Hrun; discriminate Hrun].
  destruct (PhoneLine_new_month_new_cycle self self' 1 2018 _ h' Hnew Hrun)
    as (Hbills & Hbill & _ & _ & Hold).
  exists self', h'. split; [reflexivity |].
  split; [exact Hbills |]. split; [exact Hbill |].
  apply Hold. reflexivity.
Defined.

(** ** Phone lines: the bills stay apart *)

Lemma line_ok_init (h : list Bill) (number' : string) (c : Contract) :
  contract_bill c = None → line_ok h (PhoneLine_init number' c).
Proof.
  intros Hc. unfold line_ok, PhoneLine_init. cbn [bills contract].
  repeat split; intros *; rewrite ?lookup_empty; congruence.
Qed.

Lemma line_ok_new_month (h h' : list Bill) (self self' : PhoneLine)
    (m y : Z) :
  line_ok h self →
  PhoneLine_new_month self m y h = Return (self', h') →
  line_ok h' self' ∧ (length h ≤ length h')%nat.
Proof.
  intros (Hin & Hinj & Hcur) Hrun.
  destruct (bills self !! (m, y)) as [l |] eqn:Hb.
  - unfold PhoneLine_new_month in Hrun. rewrite Hb in Hrun.
    injection Hrun as <- <-. split; [| lia]. now split.
  - destruct (PhoneLine_new_month_new_cycle self self' m y h h' Hb Hrun)
      as (Hbills & Hbill & _ & Hlen & _).
    split; [| lia]. unfold line_ok. rewrite Hbills, Hbill.
    split; [| split].
    + intros cycle l Hl. apply lookup_insert_Some in Hl as [[_ <-] | [_ Hl]];
        [lia |]. apply Hin in Hl. lia.
    + intros c1 c2 l H1 H2.
      apply lookup_insert_Some in H1 as [[<- <-] | [Hne1 H1]];
        apply lookup_insert_Some in H2 as [[<- E] | [Hne2 H2]];
        try reflexivity.
      * apply Hin in H2. lia.
      * apply Hin in H1. lia.
      * eapply Hinj; eassumption.
    + intros l [= <-]. exists (m, y). apply lookup_insert_eq.
Qed.

Lemma frame_length (ob : option loc) (h h' : list Bill) :
  frame ob h h' → length h' = length h.
Proof. now intros [Hlen _]. Qed.

(** A phone line that starts without a bill keeps its bills apart whatever
    is called on it: every bill it refers to exists, no bill serves two
    cycles, and the bill its contract writes to is one of the bills it has
    stored. *)
Theorem line_ok_preserved (h : list Bill) (self : PhoneLine) :
  line_ok h self →
  (∀ m y self' h',
     PhoneLine_new_month self m y h = Return (self', h') →
     line_ok h' self') ∧
  (∀ callhistory call self' callhistory' h',
     make_call self callhistory call h = Return ((self', callhistory'), h') →
     line_ok h' self') ∧
  (∀ callhistory call self' callhistory' h',
     receive_call self callhistory call h
     = Return ((self', callhistory'), h') →
     line_ok h' self') ∧
  (∀ fee self' h',
     cancel_line self h = Return ((fee, self'), h') → line_ok h' self').
Proof.
  intros Hok. split; [| split; [| split]].
  - intros m y self' h' Hrun.
    apply (line_ok_new_month h h' self self' m y Hok Hrun).
  - intros hist call self' hist' h' Hrun. unfold make_call, bind in Hrun.
    assert (∃ self1 h1, line_ok h1 self1 ∧
              bill_call (contract self1) call h1 = Return (contract self', h')
              ∧ bills self' = bills self1) as (self1 & h1 & Hok1 & Hcall & Hb).
    { destruct (bills self !! get_bill_date call) eqn:Hcyc.
      - unfold ret in Hrun.
        destruct (bill_call (contract self) call h) as [[c h2] |] eqn:Hcall;
          [| discriminate].
        injection Hrun as <- _ <-. now exists self, h.
      - destruct (PhoneLine_new_month self _ _ h) as [[self1 h1] |] eqn:Hnm;
          [| discriminate].
        unfold ret in Hrun.
        destruct (bill_call (contract self1) call h1) as [[c h2] |] eqn:Hcall;
          [| discriminate].
        injection Hrun as <- _ <-. exists self1, h1.
        split; [| now split].
        eapply line_ok_new_month; eassumption. }
    destruct (bill_call_frame _ _ _ _ _ Hcall) as [Hbill Hframe].
    destruct Hok1 as (Hin & Hinj & Hcur). unfold line_ok.
    rewrite Hb, Hbill, (frame_length _ _ _ Hframe). now split.
  - intros hist call self' hist' h' Hrun. unfold receive_call, bind in Hrun.
    destruct (bills self !! get_bill_date call) eqn:Hcyc.
    + injection Hrun as <- _ <-. exact Hok.
    + destruct (PhoneLine_new_month self _ _ h) as [[self1 h1] |] eqn:Hnm;
        [| discriminate].
      injection Hrun as <- _ <-. eapply line_ok_new_month; eassumption.
  - intros fee self' h' Hrun. unfold cancel_line, bind in Hrun.
    destruct (cancel_contract (contract self) h) as [[[r c] h1] |] eqn:Hc;
      [| discriminate].
    injection Hrun as _ <- <-.
    destruct (cancel_contract_frame _ _ _ _ _ Hc) as [Hbill Hframe].
    destruct Hok as (Hin & Hinj & Hcur). unfold line_ok.
    cbn [bills contract]. rewrite Hbill, (frame_length _ _ _ Hframe).
    now split.
Qed.

Lemma line_ok_preserved_witness :
  let self := PhoneLine_init "273-8255"
                (MTMContract_init (Date 2017 12 25)) in
  ∃ (self' : PhoneLine) (callhistory' : CallHistory) (h' : list Bill),
    make_call self CallHistory_init
      (mkCall "273-8255" "867-5309" (Date 2018 1 1) 50) []
    = Return ((self', callhistory'), h') ∧
    line_ok h' self'.
Proof.
  intros self.
  destruct (make_call self CallHistory_init
              (mkCall "273-8255" "867-5309" (Date 2018 1 1) 50) [])
    as [[[self' hist'] h'] |] eqn:Hrun;
    [| exfalso; vm_compute in Hrun; discriminate Hrun].
  exists self', hist', h'. split; [reflexivity |].
  apply (proj1 (proj2 (line_ok_preserved [] self
                         (line_ok_init [] "273-8255"
                            (MTMContract_init (Date 2017 12 25)) eq_refl)))
           _ _ _ _ _ Hrun).
Defined.

(** ** Phone lines: calls *)

(** A call dated in a cycle that has a bill already is charged by the
    contract to the bill it currently writes to.  When that is the bill of
    another cycle, the bill of the call's own cycle stays as it is. *)
Theorem make_call_charges_current_bill (self self' : PhoneLine)
    (callhistory callhistory' : CallHistory) (call : Call)
    (h h' : list Bill) (l0 : loc) :
  bills self !! get_bill_date call = Some l0 →
  make_call self callhistory call h = Return ((self', callhistory'), h') →
  bills self' = bills self ∧ number self' = number self ∧
  callhistory' = register_outgoing_call callhistory call ∧
  bill_call (contract self) call h = Return (contract self', h') ∧
  (contract_bill (contract self) ≠ Some l0 → h' !! l0 = h !! l0).
Proof.
  intros Hcyc. unfold make_call, bind. rewrite Hcyc. unfold ret.
  destruct (bill_call (contract self) call h) as [[c h1] |] eqn:Hcall;
    [| discriminate].
  intros [= <- <- <-]. cbn [bills number contract].
  repeat split; try reflexivity.
  intros Hne. destruct (bill_call_frame _ _ _ _ _ Hcall) as [_ [_ Hframe]].
  now apply Hframe.
Qed.

(** A month-to-month line with a bill for December (50 fixed) and one for
    January: a call dated in December is billed on the January bill. *)
Lemma make_call_charges_current_bill_witness :
  let self := mkPhoneLine "273-8255"
                (MTMContract (Some (Date 2017 12 25)) (Some 1%nat))
                (<[(1, 2018) := 1%nat]> (<[(12, 2017) := 0%nat]> ∅)) in
  let december := mkBill "MTM" 0.05 50 0 0 in
  let january := mkBill "MTM" 0.05 50 0 0 in
  ∃ (self' : PhoneLine) (callhistory' : CallHistory) (h' : list Bill),
    make_call self CallHistory_init
      (mkCall "273-8255" "867-5309" (Date 2017 12 31) 50)
      [december; january]
    = Return ((self', callhistory'), h') ∧
    h' !! 0%nat = Some december ∧
    h' !! 1%nat = Some (mkBill "MTM" 0.05 50 0 1).
Proof.
  intros self december january.
  assert (bills self
            !! get_bill_date (mkCall "273-8255" "867-5309" (Date 2017 12 31) 50)
          = Some 0%nat) as Hcyc by (vm_compute; reflexivity).
  destruct (make_call self CallHistory_init
              (mkCall "273-8255" "867-5309" (Date 2017 12 31) 50)
              [december; january])
    as [[[self' hist'] h'] |] eqn:Hrun;
    [| exfalso; vm_compute in Hrun; discriminate Hrun].
  destruct (make_call_charges_current_bill self self' _ hist' _ _ h' 0%nat
              Hcyc Hrun) as (_ & _ & _ & Hcall & Hold).
  exists self', hist', h'. split; [reflexivity |]. split.
  - etrans; [apply Hold; discriminate | reflexivity].
  - vm_compute in Hcall. injection Hcall as _ <-. reflexivity.
Defined.

(** When every call of a list is dated in a cycle that has a bill, making
    the calls from the line is billing them on the contract, one after the
    other, and registering them as outgoing calls. *)
Lemma make_calls_billed (self : PhoneLine) (callhistory : CallHistory)
    (calls : list Call) (h : list Bill) :
  Forall (λ c, is_Some (bills self !! get_bill_date c)) calls →
  make_calls self callhistory calls h
  = match bill_calls (contract self) calls h with
    | Return (c', h') =>
        Return ((mkPhoneLine (number self) c' (bills self),
                 foldl register_outgoing_call callhistory calls), h')
    | Raise e => Raise e
    end.
Proof.
  intros Hall. revert self callhistory h Hall.
  induction calls as [| call calls IH]; intros self hist h Hall.
  - simpl. now destruct self.
  - apply Forall_cons in Hall as [[l0 Hcyc] Hall].
    cbn [make_calls bill_calls foldl].
    unfold make_call, bind, ret. rewrite Hcyc.
    destruct (bill_call (contract self) call h) as [[c h1] |];
      [| reflexivity].
    cbn [fst snd]. rewrite IH by exact Hall. reflexivity.
Qed.

(** A month-to-month line and the calls of one cycle that has no bill yet.
    The first call opens the month; afterwards [get_bill] for the cycle
    shows the fee of 50, the minutes of all the calls as billed minutes and
    a total of 50 plus 0.05 a minute, and the calls are in the history. *)
Theorem mtm_line_month (self : PhoneLine) (st : option date)
    (bl : option loc) (callhistory : CallHistory) (call : Call)
    (calls : list Call) (m y : Z) (h : list Bill) :
  contract self = MTMContract st bl →
  bills self !! (m, y) = None →
  Forall (λ c, get_bill_date c = (m, y)) (call :: calls) →
  ∃ (self' : PhoneLine) (h' : list Bill) (summary : BillSummary),
    make_calls self callhistory (call :: calls) h
    = Return ((self', foldl register_outgoing_call callhistory (call :: calls)),
              h') ∧
    get_bill self' m y h' = Return (Some summary, h') ∧
    summary_number summary = number self ∧
    summary_type summary = "MTM" ∧
    summary_free_mins summary = 0 ∧
    summary_billed_mins summary = total_minutes (call :: calls) ∧
    (summary_fixed summary == 50)%Q ∧
    (summary_total summary
     == 50 + inject_Z (total_minutes (call :: calls)) * 0.05)%Q.
Proof.
  intros Hc Hnew Hall. apply Forall_cons in Hall as [Hcall Hall].
  cbn [make_calls]. unfold bind at 1, make_call. rewrite Hcall, Hnew.
  unfold get_bill_date in Hcall. injection Hcall as -> ->.
  unfold PhoneLine_new_month. rewrite Hnew. rewrite Hc.
  unfold new_month, MTMContract_new_month, bill_alloc.
  assert ((h ++ [Bill_init]) !! length h = Some Bill_init) as Hl
    by (apply list_lookup_middle; reflexivity).
  bill_run. cbn [contract number bills].
  set (l := length h) in *.
  set (self1 := mkPhoneLine (number self) (MTMContract st (@Some loc l))
                            (<[(month (time call), year (time call)) := l]>
                               (bills self))).
  rewrite (bill_call_per_minute (MTMContract st (@Some loc l)) call l _ _
             eq_refl eq_refl Hl1).
  cbn beta iota. cbn [fst snd].
  match goal with
  | |- context [make_calls ?s ?hi calls ?hp] =>
      assert (hp !! l = Some (add_billed_minutes (minutes_of (duration call))
                                (add_fixed_cost MTM_MONTHLY_FEE
                                   (set_rates "MTM" MTM_MINS_COST Bill_init))))
        as Hl2 by (apply (heap_lookup_insert _ l _ _ Hl1));
      rewrite (make_calls_billed s hi calls hp)
  end.
  2:{ eapply Forall_impl; [exact Hall |]. intros c Hcyc. cbn [bills].
      rewrite Hcyc. rewrite lookup_insert_eq. eauto. }
  cbn [contract number bills].
  destruct (bill_calls_per_minute (MTMContract st (@Some loc l)) calls l _ _
              eq_refl eq_refl Hl2)
    as (b' & Hrun & Hbilled & Hfree & Hfix & Hrate & Htype & _).
  rewrite Hrun.
  eexists _, _, _. split; [reflexivity |].
  unfold get_bill. cbn [bills number]. rewrite lookup_insert_eq.
  pose proof (heap_lookup_insert _ l _ b' Hl2) as Hl3.
  split; [bill_run; reflexivity |].
  cbn [get_summary summary_number summary_type summary_free_mins
       summary_billed_mins summary_fixed summary_total total_minutes].
  unfold get_cost. rewrite Htype, Hfree, Hbilled, Hfix, Hrate. cbn.
  repeat split; try reflexivity.
  unfold MTM_MONTHLY_FEE, MTM_MINS_COST. rewrite Z.add_0_l. lra.
Qed.

Lemma mtm_line_month_witness :
  let self := PhoneLine_init "273-8255"
                (MTMContract_init (Date 2017 12 25)) in
  ∃ (self' : PhoneLine) (callhistory' : CallHistory) (h' : list Bill)
    (summary : BillSummary),
    make_calls self CallHistory_init
      [mkCall "273-8255" "867-5309" (Date 2018 1 1) 50;
       mkCall "273-8255" "649-2568" (Date 2018 1 9) 61] []
    = Return ((self', callhistory'), h') ∧
    get_bill self' 1 2018 h' = Return (Some summary, h') ∧
    summary_billed_mins summary = 3 ∧
    (summary_total summary == 50.15)%Q.
Proof.
  intros self.
  destruct (mtm_line_month self (Some (Date 2017 12 25)) None
              CallHistory_init
              (mkCall "273-8255" "867-5309" (Date 2018 1 1) 50)
              [mkCall "273-8255" "649-2568" (Date 2018 1 9) 61]
              1 2018 [] eq_refl)
    as (self' & h' & summary & Hrun & Hbill & _ & _ & _ & Hbilled & _ & Htotal).
  - vm_compute. reflexivity.
  - repeat (apply Forall_cons_2; [reflexivity |]). apply Forall_nil_2.
  - eexists self', _, h', summary. split; [exact Hrun |].
    split; [exact Hbill |]. split; [exact Hbilled |].
    rewrite Htotal. reflexivity.
Defined.

(** ** Prepaid lines over the months *)

Lemma prepaid_balance_after_step (balance n : Z) :
  0 ≤ n →
  prepaid_balance_after (if -10 <? balance then balance - 25 else balance) n
  = prepaid_balance_after balance (n + 1).
Proof.
  intros Hn. unfold prepaid_balance_after.
  pose proof (Z.div_mod (balance + 34) 25 ltac:(lia)) as Hd.
  pose proof (Z.mod_pos_bound (balance + 34) 25 ltac:(lia)) as Hm.
  destruct (Z.ltb_spec (-10) balance).
  - pose proof (Z.div_mod (balance - 25 + 34) 25 ltac:(lia)) as Hd'.
    pose proof (Z.mod_pos_bound (balance - 25 + 34) 25 ltac:(lia)) as Hm'.
    lia.
  - lia.
Qed.

Lemma PhoneLine_new_month_prepaid (self : PhoneLine) (st : option date)
    (bl : option loc) (balance : Z) (m y : Z) (h : list Bill) :
  contract self = PrepaidContract st bl balance →
  bills self !! (m, y) = None →
  ∃ h' : list Bill,
    PhoneLine_new_month self m y h
    = Return (mkPhoneLine (number self)
                (PrepaidContract st (Some (length h))
                   (if -10 <? balance then balance - 25 else balance))
                (<[(m, y) := length h]> (bills self)), h') ∧
    length h' = S (length h) ∧
    ∃ b : Bill, h' !! length h = Some b ∧
                (fixed_cost b == - inject_Z balance)%Q.
Proof.
  intros Hc Hnew. unfold PhoneLine_new_month. rewrite Hnew, Hc.
  unfold new_month, PrepaidContract_new_month, bill_alloc.
  assert ((h ++ [Bill_init]) !! length h = Some Bill_init) as Hl
    by (apply list_lookup_middle; reflexivity).
  bill_run. eexists. split; [reflexivity |].
  split; [rewrite !length_insert, length_app; simpl; lia |].
  eexists. split; [exact Hl1 |]. simpl.
  rewrite Z.mul_comm. change (-1 * balance) with (- balance).
  rewrite inject_Z_opp. lra.
Qed.

(** A prepaid line advanced through new cycles: each new month takes 25 off
    the balance while the balance is above -10, and nothing afterwards.  So
    the balance after the months is given by the months and the starting
    balance alone, it never rises, and it never falls below -34 unless it
    started lower. *)
Theorem prepaid_balance_over_months (self : PhoneLine) (st : option date)
    (bl : option loc) (balance : Z) (cycles : list (Z * Z))
    (h : list Bill) :
  contract self = PrepaidContract st bl balance →
  NoDup cycles →
  Forall (λ cycle, bills self !! cycle = None) cycles →
  ∃ (self' : PhoneLine) (h' : list Bill) (bl' : option loc) (balance' : Z),
    PhoneLine_new_months self cycles h = Return (self', h') ∧
    contract self' = PrepaidContract st bl' balance' ∧
    balance' = prepaid_balance_after balance (Z.of_nat (length cycles)) ∧
    Z.min balance (-34) ≤ balance' ≤ balance.
Proof.
  intros Hc Hnd Hnew.
  assert (∃ self' h' bl',
            PhoneLine_new_months self cycles h = Return (self', h') ∧
            contract self'
            = PrepaidContract st bl'
                (prepaid_balance_after balance (Z.of_nat (length cycles))))
    as (self' & h' & bl' & Hrun & Hc').
  { revert self bl balance h Hc Hnew.
    induction Hnd as [| [m y] cycles Hnotin Hnd IH];
      intros self bl balance h Hc Hnew.
    - exists self, h, bl. split; [reflexivity |]. rewrite Hc.
      unfold prepaid_balance_after. simpl. do 2 f_equal. lia.
    - apply Forall_cons in Hnew as [Hnew1 Hnew].
      destruct (PhoneLine_new_month_prepaid self st bl balance m y h Hc Hnew1)
        as (h1 & Hrun1 & _ & _).
      cbn [PhoneLine_new_months fst snd]. unfold bind. rewrite Hrun1.
      destruct (IH (mkPhoneLine (number self)
                      (PrepaidContract st (Some (length h))
                         (if -10 <? balance then balance - 25 else balance))
                      (<[(m, y) := length h]> (bills self)))
                   (Some (length h)) _ h1 eq_refl)
        as (self' & h' & bl' & Hrun & Hc').
      + eapply Forall_impl.
        * apply Forall_forall. intros cycle Hin.
          exact (conj Hin (proj1 (Forall_forall _ _) Hnew cycle Hin)).
        * intros cycle [Hin Hnone]. cbn [bills].
          rewrite lookup_insert_ne; [exact Hnone |].
          intros <-. contradiction.
      + exists self', h', bl'. split; [exact Hrun |]. rewrite Hc'.
        rewrite prepaid_balance_after_step by lia. do 2 f_equal.
        cbn [length]. lia. }
  exists self', h', bl', (prepaid_balance_after balance (Z.of_nat (length cycles))).
  split; [exact Hrun |]. split; [exact Hc' |]. split; [reflexivity |].
  unfold prepaid_balance_after.
  pose proof (Z.div_mod (balance + 34) 25 ltac:(lia)) as Hd.
  pose proof (Z.mod_pos_bound (balance + 34) 25 ltac:(lia)) as Hm.
  lia.
Qed.

Lemma prepaid_balance_over_months_witness :
  let self := PhoneLine_init "649-2568"
                (PrepaidContract_init (Date 2017 12 25) 100) in
  ∃ (self' : PhoneLine) (h' : list Bill) (bl' : option loc),
    PhoneLine_new_months self
      [(12, 2017); (1, 2018); (2, 2018); (3, 2018); (4, 2018); (5, 2018);
       (6, 2018)] []
    = Return (self', h') ∧
    contract self' = PrepaidContract (Some (Date 2017 12 25)) bl' (-25).
Proof.
  intros self.
  destruct (prepaid_balance_over_months self (Some (Date 2017 12 25)) None 100
              [(12, 2017); (1, 2018); (2, 2018); (3, 2018); (4, 2018);
               (5, 2018); (6, 2018)] [] eq_refl)
    as (self' & h' & bl' & balance' & Hrun & Hc & Hb & _).
  - compute_done.
  - repeat (apply Forall_cons_2; [reflexivity |]). apply Forall_nil_2.
  - exists self', h', bl'. split; [exact Hrun |].
    rewrite Hc, Hb. reflexivity.
Defined.

(** ** Customers: numbers *)

Lemma numbers_of_inv (lines : list loc) (s s' : Store) (ns : list string) :
  numbers_of lines s = Return (ns, s') →
  s' = s ∧
  Forall2 (λ p n, ∃ o, line_objs s !! p = Some o ∧ number o = n) lines ns.
Proof.
  revert ns s'. induction lines as [| p lines IH]; intros ns s'; simpl.
  - intros [= <- <-]. split; [reflexivity | constructor].
  - unfold bind, line_read, ret.
    destruct (line_objs s !! p) as [o |] eqn:Hp; [| discriminate].
    destruct (numbers_of lines s) as [[ns' s1] |] eqn:Hrest; [| discriminate].
    destruct (IH ns' s1 eq_refl) as [-> Hall].
    intros [= <- <-]. split; [reflexivity |].
    constructor; [now exists o | exact Hall].
Qed.

Lemma contains_loop_numbers (lines : list loc) (item : string) (acc : bool)
    (s : Store) (ns : list string) :
  Forall2 (λ p n, ∃ o, line_objs s !! p = Some o ∧ number o = n) lines ns →
  contains_loop lines item acc s
  = Return (acc || bool_decide (item ∈ ns), s).
Proof.
  intros Hall. revert acc.
  induction Hall as [| p n lines ns (o & Hp & Hn) _ IH]; intros acc;
    cbn [contains_loop].
  - unfold ret. rewrite bool_decide_eq_false_2 by apply not_elem_of_nil.
    now rewrite orb_false_r.
  - unfold bind. rewrite (line_read_Some s p o get_number Hp).
    rewrite IH. unfold get_number. rewrite Hn.
    f_equal. f_equal.
    destruct (String.eqb_spec n item) as [-> | Hne].
    + rewrite (bool_decide_eq_true_2 (item ∈ item :: ns))
        by (apply elem_of_cons; now left).
      now rewrite orb_true_r.
    + destruct (decide (item ∈ ns)) as [Hin | Hnin].
      * rewrite !bool_decide_eq_true_2;
          [reflexivity | apply elem_of_cons; now right | exact Hin].
      * rewrite !bool_decide_eq_false_2; [reflexivity | | exact Hnin].
        intros Hin. apply elem_of_cons in Hin as [-> | Hin]; congruence.
Qed.

(** [item in customer] says whether [item] is among the numbers that
    [get_phone_numbers] returns, and changes nothing. *)
Theorem contains_iff_phone_number (self : Customer) (item : string)
    (s : Store) (ns : list string) :
  get_phone_numbers self s = Return (ns, s) →
  Customer_contains self item s = Return (bool_decide (item ∈ ns), s).
Proof.
  unfold get_phone_numbers, Customer_contains. intros Hns.
  destruct (numbers_of_inv _ _ _ _ Hns) as [_ Hall].
  now rewrite (contains_loop_numbers _ item false s ns Hall).
Qed.

Lemma contains_iff_phone_number_witness :
  let line n := mkPhoneLine n (MTMContract (Some (Date 2017 12 25)) None) ∅ in
  let s := mkStore [] [line "867-5309"; line "273-8255"] in
  let self := mkCustomer 5555 [0; 1]%nat in
  Customer_contains self "273-8255" s = Return (true, s) ∧
  Customer_contains self "000-0000" s = Return (false, s).
Proof.
  intros line s self. split.
  - apply (contains_iff_phone_number self "273-8255" s
             ["867-5309"; "273-8255"] eq_refl).
  - apply (contains_iff_phone_number self "000-0000" s
             ["867-5309"; "273-8255"] eq_refl).
Defined.

(** ** Customers: adding and cancelling lines *)

(** A line that is added to a customer who had no line of that number and
    then cancelled by its number: the customer is as before, and what
    cancelling the line's contract returned is returned. *)
Theorem add_then_cancel_phone_line (self : Customer) (p : loc)
    (o : PhoneLine) (s : Store) (fee : option Q) (c' : Contract)
    (h' : list Bill) :
  line_objs s !! p = Some o →
  Forall (other_number s (number o)) (_phone_lines self) →
  cancel_contract (contract o) (bill_objs s) = Return ((fee, c'), h') →
  cancel_phone_line (add_phone_line self p) (number o) s
  = Return ((fee, self),
            mkStore h' (<[p := mkPhoneLine (number o) c' (bills o)]>
                          (line_objs s))).
Proof.
  intros Hp Hall Hcancel. unfold cancel_phone_line, add_phone_line, bind.
  cbn [_phone_lines _id].
  assert (Forall (other_number s (number o)) (_phone_lines self ++ []))
    as Hall' by now rewrite app_nil_r.
  rewrite (cancel_loop_one_match (number o) s (_phone_lines self) [] p o
             None fee c' h' _ 0%nat Hp eq_refl Hall' Hcancel) by lia.
  unfold ret. cbn [fst snd]. rewrite app_nil_r. now destruct self.
Qed.

Lemma add_then_cancel_phone_line_witness :
  let o := mkPhoneLine "273-8255"
             (MTMContract (Some (Date 2017 12 25)) (Some 0%nat))
             (<[(12, 2017) := 0%nat]> ∅) in
  let other := mkPhoneLine "867-5309"
                 (MTMContract (Some (Date 2017 12 25)) None) ∅ in
  let s := mkStore [mkBill "MTM" 0.05 50 0 0] [other; o] in
  let self := mkCustomer 5555 [0%nat] in
  ∃ s' : Store,
    cancel_phone_line (add_phone_line self 1%nat) "273-8255" s
    = Return ((Some (get_cost (mkBill "MTM" 0.05 50 0 0)), self), s').
Proof.
  intros o other s self. eexists.
  apply (add_then_cancel_phone_line self 1%nat o s _
           (MTMContract None (Some 0%nat)) [mkBill "MTM" 0.05 50 0 0] eq_refl).
  - apply Forall_cons_2; [| apply Forall_nil_2].
    exists other. split; [reflexivity | discriminate].
  - reflexivity.
Defined.

(** Over the lines from position [i] on, all of other numbers, the loop
    runs to the end of the list and changes nothing. *)
Lemma cancel_loop_rest_no_match (n : string) (s : Store) (lines : list loc)
    (fee : option Q) (fuel i : nat) :
  Forall (other_number s n) (drop i lines) →
  (length lines - i < fuel)%nat →
  cancel_loop fuel n i lines fee s = Return ((fee, lines), s).
Proof.
  revert i. induction fuel as [| fuel IH]; intros i Hall Hfuel; [lia |].
  simpl. destruct (lines !! i) as [pl |] eqn:Hi; [| reflexivity].
  rewrite (drop_S _ _ _ Hi) in Hall. apply Forall_cons in Hall as [Hpl Hall].
  destruct Hpl as (o & Ho & Hne).
  unfold bind. rewrite (line_read_Some s pl o get_number Ho).
  unfold get_number. apply String.eqb_neq in Hne. rewrite Hne.
  apply IH; [exact Hall |]. apply lookup_lt_Some in Hi. lia.
Qed.

(** Two lines of the same number next to each other: the list iterator
    steps over the second one after the first is removed.  Only the first
    line is removed and cancelled; the second stays as it is, and the number
    is still one of the customer's. *)
Theorem cancel_phone_line_skips_next (self : Customer) (s : Store)
    (l1 l2 : list loc) (p q : loc) (o oq : PhoneLine) (fee : option Q)
    (c' : Contract) (h' : list Bill) :
  _phone_lines self = l1 ++ p :: q :: l2 →
  p ≠ q →
  line_objs s !! p = Some o → line_objs s !! q = Some oq →
  number oq = number o →
  Forall (other_number s (number o)) (l1 ++ l2) →
  cancel_contract (contract o) (bill_objs s) = Return ((fee, c'), h') →
  let s' := mkStore h' (<[p := mkPhoneLine (number o) c' (bills o)]>
                          (line_objs s)) in
  cancel_phone_line self (number o) s
  = Return ((fee, mkCustomer (_id self) (l1 ++ q :: l2)), s') ∧
  line_objs s' !! q = Some oq.
Proof.
  intros Hlines Hpq Hp Hq Hnum Hall Hcancel s'.
  assert (line_objs s' !! q = Some oq) as Hq'.
  { subst s'. cbn [line_objs]. rewrite list_lookup_insert_ne; [exact Hq |].
    exact Hpq. }
  split; [| exact Hq'].
  assert (p ∉ l1) as Hnotin.
  { intros Hin.
    destruct (proj1 (Forall_forall _ _) Hall p) as (o' & Ho' & Hne);
      [apply elem_of_app; now left | congruence]. }
  assert (∀ fuel i,
            (i ≤ length l1)%nat →
            (length (l1 ++ p :: q :: l2) - i < fuel)%nat →
            cancel_loop fuel (number o) i (l1 ++ p :: q :: l2) None s
            = Return ((fee, l1 ++ q :: l2), s')) as Hloop.
  { induction fuel as [| fuel IH]; intros i Hi Hfuel; [lia |].
    simpl. destruct (decide (i = length l1)) as [-> | Hlt].
    - rewrite list_lookup_middle by reflexivity.
      unfold bind at 1. rewrite (line_read_Some s p o get_number Hp).
      unfold get_number. rewrite String.eqb_refl.
      rewrite list_remove_middle by exact Hnotin.
      unfold bind at 1, line_call, cancel_line.
      rewrite Hp. unfold bind at 1. rewrite Hcancel. unfold ret. simpl.
      fold s'. apply cancel_loop_rest_no_match.
      + replace (S (length l1)) with (length (l1 ++ [q]))
          by (rewrite length_app; simpl; lia).
        replace (l1 ++ q :: l2) with ((l1 ++ [q]) ++ l2)
          by (now rewrite <- app_assoc).
        rewrite drop_app_length.
        apply Forall_app in Hall as [_ Hall2].
        eapply Forall_impl; [exact Hall2 |].
        intros r (or & Hr & Hne). exists or. split; [| exact Hne].
        subst s'. cbn [line_objs].
        rewrite list_lookup_insert_ne; [exact Hr |]. intros ->. congruence.
      + rewrite length_app in *. simpl in Hfuel |- *. lia.
    - assert (i < length l1)%nat as Hi' by lia.
      rewrite lookup_app_l by exact Hi'.
      destruct (lookup_lt_is_Some_2 l1 i Hi') as [r Hr]. rewrite Hr.
      assert (other_number s (number o) r) as (or & Hor & Hne).
      { apply (proj1 (Forall_forall _ _) Hall). apply elem_of_app. left.
        eapply list_elem_of_lookup_2, Hr. }
      unfold bind at 1. rewrite (line_read_Some s r or get_number Hor).
      unfold get_number. apply String.eqb_neq in Hne. rewrite Hne.
      apply IH; [lia |]. rewrite length_app in *. simpl in Hfuel |- *. lia. }
  unfold cancel_phone_line, bind. rewrite Hlines.
  rewrite Hloop by lia. reflexivity.
Qed.

Lemma cancel_phone_line_skips_next_witness :
  let line := mkPhoneLine "273-8255"
                (MTMContract (Some (Date 2017 12 25)) (Some 0%nat))
                (<[(12, 2017) := 0%nat]> ∅) in
  let twin := mkPhoneLine "273-8255"
                (MTMContract (Some (Date 2017 12 25)) (Some 1%nat))
                (<[(12, 2017) := 1%nat]> ∅) in
  let s := mkStore [mkBill "MTM" 0.05 50 0 0; mkBill "MTM" 0.05 50 0 2]
                   [line; twin] in
  ∃ s' : Store,
    cancel_phone_line (mkCustomer 5555 [0; 1]%nat) "273-8255" s
    = Return ((Some (get_cost (mkBill "MTM" 0.05 50 0 0)),
               mkCustomer 5555 [1%nat]), s') ∧
    line_objs s' !! 1%nat = Some twin.
Proof.
  intros line twin s. eexists.
  apply (cancel_phone_line_skips_next (mkCustomer 5555 [0; 1]%nat) s
           [] [] 0%nat 1%nat line twin _ (MTMContract None (Some 0%nat))
           [mkBill "MTM" 0.05 50 0 0; mkBill "MTM" 0.05 50 0 2]
           eq_refl ltac:(discriminate) eq_refl eq_refl eq_refl
           (Forall_nil_2 _) eq_refl).
Defined.

(** ** Customers: calls *)

Lemma lines_make_call_unknown (lines : list loc) (call : Call) (w : World) :
  Forall (other_number (world_store w) (src_number call)) lines →
  lines_make_call lines call w = Return (tt, w).
Proof.
  induction 1 as [| x lines (o & Ho & Hne) _ IH]; simpl; [reflexivity |].
  unfold bind at 1, world_line_read. rewrite Ho.
  assert ((src_number call =? number o)%string = false) as ->
    by (apply String.eqb_neq; congruence).
  unfold bind, ret. exact IH.
Qed.

Lemma lines_receive_call_unknown (lines : list loc) (call : Call)
    (w : World) :
  Forall (other_number (world_store w) (dst_number call)) lines →
  lines_receive_call lines call w = Return (tt, w).
Proof.
  induction 1 as [| x lines (o & Ho & Hne) _ IH]; simpl; [reflexivity |].
  unfold bind at 1, world_line_read. rewrite Ho.
  assert ((dst_number call =? number o)%string = false) as ->
    by (apply String.eqb_neq; congruence).
  unfold bind, ret. exact IH.
Qed.

(** [Customer.make_call] goes by the source number of the call.  When no
    line of the customer has it, nothing happens and nothing is raised.
    When one line has it, the call is made from that line, with its history,
    and the other lines and histories stay as they are.  In the same way
    [Customer.receive_call] does nothing for a destination number that no
    line has. *)
Theorem Customer_make_call_by_number (self : Customer) (call : Call)
    (w : World) :
  (Forall (other_number (world_store w) (src_number call))
          (_phone_lines self) →
   Customer_make_call self call w = Return (tt, w)) ∧
  (∀ (l1 l2 : list loc) (p : loc) (o o' : PhoneLine)
     (hist hist' : CallHistory) (h' : list Bill),
     _phone_lines self = l1 ++ p :: l2 →
     line_objs (world_store w) !! p = Some o →
     number o = src_number call →
     history_objs w !! p = Some hist →
     Forall (other_number (world_store w) (src_number call)) (l1 ++ l2) →
     make_call o hist call (bill_objs (world_store w))
     = Return ((o', hist'), h') →
     Customer_make_call self call w
     = Return (tt, mkWorld
                     (mkStore h' (<[p := o']> (line_objs (world_store w))))
                     (<[p := hist']> (history_objs w)))) ∧
  (Forall (other_number (world_store w) (dst_number call))
          (_phone_lines self) →
   Customer_receive_call self call w = Return (tt, w)).
Proof.
  split; [apply lines_make_call_unknown |].
  split; [| apply lines_receive_call_unknown].
  intros l1 l2 p o o' hist hist' h' Hlines Hp Hn Hhist Hall Hcall.
  unfold Customer_make_call. rewrite Hlines. clear Hlines.
  apply Forall_app in Hall as [Hall1 Hall2].
  assert (p ∉ l2) as Hnotin.
  { intros Hin. apply (proj1 (Forall_forall _ _) Hall2) in Hin
      as (o2 & Ho2 & Hne). congruence. }
  induction Hall1 as [| x l1 (ox & Hox & Hne) _ IH]; simpl.
  - unfold bind at 1, world_line_read. rewrite Hp.
    rewrite Hn, String.eqb_refl.
    unfold bind at 1, line_call_history. rewrite Hp, Hhist, Hcall.
    apply lines_make_call_unknown. cbn [world_store line_objs].
    apply Forall_forall. intros r Hr.
    destruct (proj1 (Forall_forall _ _) Hall2 r Hr) as (o2 & Ho2 & Hne).
    exists o2. split; [| exact Hne]. cbn [world_store line_objs].
    rewrite list_lookup_insert_ne; [exact Ho2 |]. intros ->. contradiction.
  - unfold bind at 1, world_line_read. rewrite Hox.
    assert ((src_number call =? number ox)%string = false) as ->
      by (apply String.eqb_neq; congruence).
    unfold bind, ret. exact IH.
Qed.

Lemma Customer_make_call_by_number_witness :
  let term := mkPhoneLine "867-5309"
                (TermContract (Some (Date 2017 12 25)) (Some (Date 2019 6 25))
                              (Some 0%nat) 100 (Some (1, 2018)))
                (<[(1, 2018) := 0%nat]> ∅) in
  let mtm := mkPhoneLine "273-8255"
               (MTMContract (Some (Date 2017 12 25)) (Some 1%nat))
               (<[(1, 2018) := 1%nat]> ∅) in
  let w := mkWorld (mkStore [mkBill "TERM" 0.1 20 0 0; mkBill "MTM" 0.05 50 0 0]
                            [term; mtm])
                   [CallHistory_init; CallHistory_init] in
  let self := mkCustomer 5555 [0; 1]%nat in
  Customer_make_call self
    (mkCall "000-0000" "867-5309" (Date 2018 1 1) 50) w = Return (tt, w) ∧
  ∃ w' : World,
    Customer_make_call self
      (mkCall "273-8255" "867-5309" (Date 2018 1 1) 50) w = Return (tt, w') ∧
    bill_objs (world_store w')
    = [mkBill "TERM" 0.1 20 0 0; mkBill "MTM" 0.05 50 0 1].
Proof.
  intros term mtm w self. split.
  - apply (proj1 (Customer_make_call_by_number self _ w)).
    apply Forall_cons_2; [exists term; split; [reflexivity | discriminate] |].
    apply Forall_cons_2; [exists mtm; split; [reflexivity | discriminate] |].
    apply Forall_nil_2.
  - destruct (make_call mtm CallHistory_init
                (mkCall "273-8255" "867-5309" (Date 2018 1 1) 50)
                (bill_objs (world_store w)))
      as [[[o' hist'] h'] |] eqn:Hcall;
      [| exfalso; vm_compute in Hcall; discriminate Hcall].
    exists (mkWorld (mkStore h' (<[1%nat := o']> (line_objs (world_store w))))
                    (<[1%nat := hist']> (history_objs w))).
    split.
    + apply (proj1 (proj2 (Customer_make_call_by_number self
                      (mkCall "273-8255" "867-5309" (Date 2018 1 1) 50) w))
               [0%nat] [] 1%nat mtm o' CallHistory_init hist' h'
               eq_refl eq_refl eq_refl eq_refl); [| exact Hcall].
      apply Forall_cons_2; [| apply Forall_nil_2].
      exists term. split; [reflexivity | discriminate].
    + cbn [world_store bill_objs]. vm_compute in Hcall.
      injection Hcall as _ _ <-. reflexivity.
Defined.

(** ** Customers: a new month and the bill *)

Lemma line_ok_mono (h h' : list Bill) (o : PhoneLine) :
  line_ok h o → (length h ≤ length h')%nat → line_ok h' o.
Proof.
  intros (Hin & Hinj & Hcur) Hlen. split; [| now split].
  intros cycle l Hl. apply Hin in Hl. lia.
Qed.

Lemma line_call_new_month_inv (p : loc) (m y : Z) (s s' : Store) (u : unit) :
  line_call p (λ o, bind (PhoneLine_new_month o m y) (λ o', ret (tt, o'))) s
  = Return (u, s') →
  ∃ (o o' : PhoneLine) (h' : list Bill),
    line_objs s !! p = Some o ∧
    PhoneLine_new_month o m y (bill_objs s) = Return (o', h') ∧
    s' = mkStore h' (<[p := o']> (line_objs s)).
Proof.
  unfold line_call, bind, ret.
  destruct (line_objs s !! p) as [o |] eqn:Hp; [| discriminate].
  destruct (PhoneLine_new_month o m y (bill_objs s)) as [[o' h'] |] eqn:Hnm;
    [| discriminate].
  intros [= _ <-]. now exists o, o', h'.
Qed.

Lemma new_month_step_facts (p : loc) (m y : Z) (s : Store)
    (o o' : PhoneLine) (h' : list Bill) :
  store_ok s →
  line_objs s !! p = Some o →
  PhoneLine_new_month o m y (bill_objs s) = Return (o', h') →
  let s' := mkStore h' (<[p := o']> (line_objs s)) in
  store_ok s' ∧ has_bill s' (m, y) p ∧
  ∀ q cycle, has_bill s cycle q → has_bill s' cycle q.
Proof.
  intros Hok Hp Hnm s'.
  pose proof (Forall_lookup_1 _ _ _ _ Hok Hp) as Hoko.
  destruct (line_ok_new_month _ _ _ _ _ _ Hoko Hnm) as [Hoko' Hlen].
  assert (p < length (line_objs s))%nat as Hplt
    by (eapply lookup_lt_Some, Hp).
  assert (∀ cycle, is_Some (bills o !! cycle) → is_Some (bills o' !! cycle))
    as Hkeep.
  { intros cycle Hc. destruct (bills o !! (m, y)) as [l |] eqn:Hb.
    - unfold PhoneLine_new_month in Hnm. rewrite Hb in Hnm.
      now injection Hnm as <- _.
    - destruct (PhoneLine_new_month_new_cycle o o' m y _ h' Hb Hnm)
        as (-> & _).
      destruct (decide ((m, y) = cycle)) as [<- | Hne].
      + rewrite lookup_insert_eq. eauto.
      + now rewrite lookup_insert_ne. }
  assert (is_Some (bills o' !! (m, y))) as Hnow.
  { destruct (bills o !! (m, y)) as [l |] eqn:Hb.
    - apply Hkeep. rewrite Hb. eauto.
    - destruct (PhoneLine_new_month_new_cycle o o' m y _ h' Hb Hnm)
        as (-> & _).
      rewrite lookup_insert_eq. eauto. }
  split; [| split].
  - unfold store_ok, s'. cbn [bill_objs line_objs].
    apply Forall_insert; [| exact Hoko'].
    eapply Forall_impl; [exact Hok |].
    intros q Hq. eapply line_ok_mono; eassumption.
  - exists o'. split; [| exact Hnow]. unfold s'. cbn [line_objs].
    now apply list_lookup_insert_eq.
  - intros q cycle (oq & Hq & Hc). unfold has_bill, s'. cbn [line_objs].
    destruct (decide (p = q)) as [<- | Hne].
    + exists o'. rewrite list_lookup_insert_eq by exact Hplt.
      split; [reflexivity |]. apply Hkeep. congruence.
    + exists oq. now rewrite list_lookup_insert_ne.
Qed.

Lemma lines_new_month_facts (lines : list loc) (m y : Z) (s s' : Store)
    (u : unit) :
  store_ok s →
  lines_new_month lines m y s = Return (u, s') →
  store_ok s' ∧ Forall (has_bill s' (m, y)) lines ∧
  ∀ q cycle, has_bill s cycle q → has_bill s' cycle q.
Proof.
  revert s. induction lines as [| p lines IH]; intros s Hok; simpl.
  - intros [= _ <-]. split; [exact Hok |]. split; [constructor | tauto].
  - unfold bind at 1.
    destruct (line_call p _ s) as [[[] s1] |] eqn:Hstep; [| discriminate].
    intros Hrest.
    destruct (line_call_new_month_inv _ _ _ _ _ _ Hstep)
      as (o & o' & h' & Hp & Hnm & ->).
    destruct (new_month_step_facts p m y s o o' h' Hok Hp Hnm)
      as (Hok1 & Hhas & Hmono).
    destruct (IH _ Hok1 Hrest) as (Hok' & Hall & Hmono').
    split; [exact Hok' |]. split.
    + constructor; [now apply Hmono' | exact Hall].
    + intros q cycle Hq. now apply Hmono', Hmono.
Qed.

Lemma lines_new_month_billed (lines : list loc) (m y : Z) (s : Store) :
  Forall (has_bill s (m, y)) lines →
  lines_new_month lines m y s = Return (tt, s).
Proof.
  induction 1 as [| p lines (o & Hp & [l Hl]) _ IH]; simpl; [reflexivity |].
  unfold bind at 1, line_call. rewrite Hp.
  unfold PhoneLine_new_month, bind, ret. rewrite Hl.
  rewrite list_insert_id by exact Hp.
  destruct s as [h ls]. exact IH.
Qed.

(** [Customer.new_month] on a store whose lines keep their bills apart:
    afterwards every line of the customer has a bill for the cycle, the lines
    still keep their bills apart, and a second [new_month] for the cycle
    changes nothing. *)
Theorem Customer_new_month_bills_every_line (self : Customer) (m y : Z)
    (s s' : Store) :
  store_ok s →
  Customer_new_month self m y s = Return (tt, s') →
  store_ok s' ∧
  Forall (has_bill s' (m, y)) (_phone_lines self) ∧
  Customer_new_month self m y s' = Return (tt, s').
Proof.
  unfold Customer_new_month. intros Hok Hrun.
  destruct (lines_new_month_facts _ _ _ _ _ _ Hok Hrun) as (Hok' & Hall & _).
  split; [exact Hok' |]. split; [exact Hall |].
  now apply lines_new_month_billed.
Qed.

Lemma store_ok_init (lines : list PhoneLine) :
  Forall (λ o, bills o = ∅ ∧ contract_bill (contract o) = None) lines →
  store_ok (mkStore [] lines).
Proof.
  unfold store_ok. cbn [bill_objs line_objs]. intros Hall.
  eapply Forall_impl; [exact Hall |].
  intros o [Hb Hc]. unfold line_ok. rewrite Hb, Hc.
  repeat split; intros *; rewrite ?lookup_empty; congruence.
Qed.

(** The customer of the tests: three new lines advanced to (12, 2017). *)
Lemma Customer_new_month_bills_every_line_witness :
  let start := Date 2017 12 25 in
  let s := mkStore []
             [PhoneLine_init "867-5309"
                (TermContract_init start (Date 2019 6 25));
              PhoneLine_init "273-8255" (MTMContract_init start);
              PhoneLine_init "649-2568" (PrepaidContract_init start 100)] in
  let self := mkCustomer 5555 [0; 1; 2]%nat in
  ∃ s' : Store,
    Customer_new_month self 12 2017 s = Return (tt, s') ∧
    length (bill_objs s') = 3%nat ∧
    Forall (has_bill s' (12, 2017)) [0; 1; 2]%nat ∧
    Customer_new_month self 12 2017 s' = Return (tt, s').
Proof.
  intros start s self.
  destruct (Customer_new_month self 12 2017 s) as [[[] s'] |] eqn:Hrun;
    [| exfalso; vm_compute in Hrun; discriminate Hrun].
  assert (store_ok s) as Hok.
  { apply store_ok_init.
    repeat (apply Forall_cons_2; [split; reflexivity |]). apply Forall_nil_2. }
  destruct (Customer_new_month_bills_every_line self 12 2017 s s' Hok Hrun)
    as (_ & Hall & Hagain).
  exists s'. split; [reflexivity |]. split; [| split; assumption].
  vm_compute in Hrun. injection Hrun as <-. reflexivity.
Defined.

Lemma line_call_get_bill (p : loc) (m y : Z) (s : Store) (o : PhoneLine) :
  store_ok s →
  line_objs s !! p = Some o →
  line_call p (λ o, bind (get_bill o m y) (λ r, ret (r, o))) s
  = Return (summary_of s (m, y) p, s).
Proof.
  intros Hok Hp. unfold line_call, summary_of. rewrite Hp.
  cbn [mbind option_bind].
  pose proof (Forall_lookup_1 _ _ _ _ Hok Hp) as (Hin & _ & _).
  unfold get_bill, bind, ret, bill_read.
  destruct (bills o !! (m, y)) as [l |] eqn:Hl;
    cbn [mbind option_bind]; cbn beta iota; unfold loc in *.
  - destruct (lookup_lt_is_Some_2 (bill_objs s) l (Hin _ _ Hl)) as [b Hb].
    rewrite Hb. cbn [mbind option_bind]. cbn beta iota.
    rewrite list_insert_id by exact Hp. now destruct s.
  - rewrite list_insert_id by exact Hp. now destruct s.
Qed.

Lemma generate_loop_summaries (lines : list loc) (m y : Z)
    (bills' : list BillSummary) (total : Q) (s : Store) :
  store_ok s →
  Forall (λ p, is_Some (line_objs s !! p)) lines →
  generate_loop lines m y bills' total s
  = Return ((foldl (λ t x, (t + summary_total x)%Q) total
                   (omap (summary_of s (m, y)) lines),
             bills' ++ omap (summary_of s (m, y)) lines), s).
Proof.
  intros Hok Hall. revert bills' total.
  induction Hall as [| p lines [o Hp] _ IH]; intros bills' total;
    cbn [generate_loop omap list_omap].
  - unfold ret. cbn. now rewrite app_nil_r.
  - unfold bind at 1. rewrite (line_call_get_bill p m y s o Hok Hp).
    destruct (summary_of s (m, y) p) as [summary |].
    + rewrite IH. cbn [foldl]. now rewrite <- app_assoc.
    + apply IH.
Qed.

Lemma summary_of_is_Some (s : Store) (cycle : Z * Z) (p : loc) :
  store_ok s → has_bill s cycle p → is_Some (summary_of s cycle p).
Proof.
  intros Hok (o & Hp & [l Hl]). unfold summary_of. rewrite Hp.
  pose proof (Forall_lookup_1 _ _ _ _ Hok Hp) as (Hin & _ & _).
  destruct (lookup_lt_is_Some_2 (bill_objs s) l (Hin _ _ Hl)) as [b Hb].
  unfold loc in *. cbn [mbind option_bind]. rewrite Hl.
  cbn [mbind option_bind]. rewrite Hb. cbn [mbind option_bind]. eauto.
Qed.

(** [Customer.generate_bill] on a store whose lines keep their bills apart
    changes nothing and returns the customer's id, the summaries of the lines
    that have a bill for the cycle, in the order of the lines, and the sum of
    their totals.  A line without a bill for the cycle is left out; when
    every line has one, there is a summary for every line. *)
Theorem generate_bill_summaries (self : Customer) (m y : Z) (s : Store) :
  store_ok s →
  Forall (λ p, is_Some (line_objs s !! p)) (_phone_lines self) →
  let summaries := omap (summary_of s (m, y)) (_phone_lines self) in
  generate_bill self m y s
  = Return ((_id self,
             foldl (λ t x, (t + summary_total x)%Q) 0%Q summaries,
             summaries), s) ∧
  (∀ p, p ∈ _phone_lines self → ¬ has_bill s (m, y) p →
        summary_of s (m, y) p = None) ∧
  (Forall (has_bill s (m, y)) (_phone_lines self) →
   length summaries = length (_phone_lines self)).
Proof.
  intros Hok Hall summaries. split; [| split].
  - unfold generate_bill, bind.
    rewrite (generate_loop_summaries _ m y [] 0%Q s Hok Hall). reflexivity.
  - intros p _ Hno. unfold summary_of.
    destruct (line_objs s !! p) as [o |] eqn:Hp; [| reflexivity]. cbn.
    destruct (bills o !! (m, y)) as [l |] eqn:Hl; [| reflexivity].
    exfalso. apply Hno. exists o. split; [exact Hp |]. now exists l.
  - intros Hbills. subst summaries.
    induction Hbills as [| p lines Hbill _ IH]; [reflexivity |].
    apply Forall_cons in Hall as [_ Hall].
    cbn [omap list_omap].
    destruct (summary_of_is_Some s (m, y) p Hok Hbill) as [summary ->].
    cbn [length]. now rewrite (IH Hall).
Qed.

(** The customer of the tests after the month (12, 2017): three summaries,
    of 320, 50 and -100, and a total of 270. *)
Lemma generate_bill_summaries_witness :
  let start := Date 2017 12 25 in
  let s := mkStore
             [mkBill "TERM" 0.1 320 0 0; mkBill "MTM" 0.05 50 0 0;
              mkBill "PREPAID" 0.025 (-100) 0 0]
             [mkPhoneLine "867-5309"
                (TermContract (Some start) (Some (Date 2019 6 25))
                              (Some 0%nat) 100 (Some (12, 2017)))
                (<[(12, 2017) := 0%nat]> ∅);
              mkPhoneLine "273-8255" (MTMContract (Some start) (Some 1%nat))
                          (<[(12, 2017) := 1%nat]> ∅);
              mkPhoneLine "649-2568"
                (PrepaidContract (Some start) (Some 2%nat) 75)
                (<[(12, 2017) := 2%nat]> ∅)] in
  let self := mkCustomer 5555 [0; 1; 2]%nat in
  ∃ (total : Q) (summaries : list BillSummary),
    generate_bill self 12 2017 s = Return ((5555, total, summaries), s) ∧
    (total == 270)%Q ∧
    summary_number <$> summaries = ["867-5309"; "273-8255"; "649-2568"] ∧
    generate_bill self 1 2018 s = Return ((5555, 0%Q, []), s).
Proof.
  intros start s self.
  assert (store_ok s) as Hok.
  { unfold store_ok, s. cbn [bill_objs line_objs].
    repeat (apply Forall_cons_2;
            [unfold line_ok; cbn [bills contract contract_bill];
             repeat split;
             [ intros cycle l Hl;
               apply lookup_insert_Some in Hl as [[_ <-] | [_ Hl]];
               [simpl; lia | now rewrite lookup_empty in Hl]
             | intros c1 c2 l H1 H2;
               apply lookup_insert_Some in H1 as [[<- _] | [_ H1]];
               [| now rewrite lookup_empty in H1];
               apply lookup_insert_Some in H2 as [[<- _] | [_ H2]];
               [reflexivity | now rewrite lookup_empty in H2]
             | intros l [= <-]; exists (12, 2017); apply lookup_insert_eq ] |]).
    apply Forall_nil_2. }
  assert (Forall (λ p, is_Some (line_objs s !! p)) (_phone_lines self))
    as Hlines
    by (repeat (apply Forall_cons_2; [eexists; reflexivity |]);
        apply Forall_nil_2).
  destruct (generate_bill_summaries self 12 2017 s Hok Hlines)
    as (Hrun & _ & _).
  destruct (generate_bill_summaries self 1 2018 s Hok Hlines)
    as (Hrun' & _ & _).
  eexists _, _. split; [exact Hrun |].
  split; [reflexivity |]. split; [reflexivity | exact Hrun'].
Defined.

(** ** Term lines over the months *)

Lemma insert_last (h : list Bill) (x y : Bill) :
  <[length h := x]> (h ++ [y]) = h ++ [x].
Proof.
  rewrite insert_app_r_alt by lia. now rewrite Nat.sub_diag.
Qed.

Lemma PhoneLine_new_month_term (self : PhoneLine) (s : date)
    (e : option date) (bl : option loc) (tm : Z) (sm : option (Z * Z))
    (m y : Z) (h : list Bill) :
  contract self = TermContract (Some s) e bl tm sm →
  bills self !! (m, y) = None →
  ∃ b : Bill,
    PhoneLine_new_month self m y h
    = Return (mkPhoneLine (number self)
                (TermContract (Some s) e (Some (length h)) 100 (Some (m, y)))
                (<[(m, y) := length h]> (bills self)), h ++ [b]) ∧
    bill_type b = "TERM" ∧
    (fixed_cost b
     == 20 + (if bool_decide ((m, y) = (month s, year s)) then 300 else 0))%Q.
Proof.
  intros Hc Hnew. unfold PhoneLine_new_month. rewrite Hnew, Hc.
  unfold new_month, TermContract_new_month, bill_alloc.
  assert ((h ++ [Bill_init]) !! length h = Some Bill_init) as Hl
    by (apply list_lookup_middle; reflexivity).
  bill_run.
  destruct (tuple_eqb (m, y) (month s, year s)) eqn:Heq.
  - assert ((m, y) = (month s, year s)) as Hmy.
    { unfold tuple_eqb in Heq. simpl in Heq.
      apply andb_true_iff in Heq as [H1 H2].
      apply Z.eqb_eq in H1, H2. now subst. }
    bill_run. rewrite !list_insert_insert_eq, insert_last.
    eexists. split; [reflexivity |]. split; [reflexivity |].
    rewrite bool_decide_eq_true_2 by exact Hmy. simpl.
    unfold TERM_MONTHLY_FEE, TERM_DEPOSIT. lra.
  - assert ((m, y) ≠ (month s, year s)) as Hmy.
    { intros [= -> ->]. unfold tuple_eqb in Heq. simpl in Heq.
      now rewrite !Z.eqb_refl in Heq. }
    unfold ret. rewrite !list_insert_insert_eq, insert_last.
    eexists. split; [reflexivity |]. split; [reflexivity |].
    rewrite bool_decide_eq_false_2 by exact Hmy. simpl.
    unfold TERM_MONTHLY_FEE. lra.
Qed.

(** A term line advanced through new cycles gets one new bill for each
    cycle, after the bills that existed, which stay as they are.  Each new
    bill carries the fee of 20, and the bill of the start cycle the deposit
    of 300 as well: over the months the fixed costs add up to 20 a month,
    plus 300 once if the start cycle is among them. *)
Theorem term_line_over_months (self : PhoneLine) (s : date)
    (e : option date) (bl : option loc) (tm : Z) (sm : option (Z * Z))
    (cycles : list (Z * Z)) (h : list Bill) :
  contract self = TermContract (Some s) e bl tm sm →
  NoDup cycles →
  Forall (λ cycle, bills self !! cycle = None) cycles →
  ∃ (self' : PhoneLine) (news : list Bill),
    PhoneLine_new_months self cycles h = Return (self', h ++ news) ∧
    Forall2 (λ cycle b,
               bill_type b = "TERM" ∧
               (fixed_cost b
                == 20 + (if bool_decide (cycle = (month s, year s))
                         then 300 else 0))%Q) cycles news ∧
    (foldr (λ b t, fixed_cost b + t) 0 news
     == 20 * inject_Z (Z.of_nat (length cycles))
        + (if bool_decide ((month s, year s) ∈ cycles) then 300 else 0))%Q.
Proof.
  intros Hc Hnd Hnew.
  assert (∃ self' news,
            PhoneLine_new_months self cycles h = Return (self', h ++ news) ∧
            Forall2 (λ cycle b,
                       bill_type b = "TERM" ∧
                       (fixed_cost b
                        == 20 + (if bool_decide (cycle = (month s, year s))
                                 then 300 else 0))%Q) cycles news)
    as (self' & news & Hrun & Hall).
  { revert self bl tm sm h Hc Hnew.
    induction Hnd as [| [m y] cycles Hnotin Hnd IH];
      intros self bl tm sm h Hc Hnew.
    - exists self, []. rewrite app_nil_r. split; [reflexivity | constructor].
    - apply Forall_cons in Hnew as [Hnew1 Hnew].
      destruct (PhoneLine_new_month_term self s e bl tm sm m y h Hc Hnew1)
        as (b & Hrun1 & Htype & Hfix).
      cbn [PhoneLine_new_months fst snd]. unfold bind. rewrite Hrun1.
      destruct (IH (mkPhoneLine (number self)
                      (TermContract (Some s) e (Some (length h)) 100
                                    (Some (m, y)))
                      (<[(m, y) := length h]> (bills self)))
                   (Some (length h)) 100 (Some (m, y)) (h ++ [b]) eq_refl)
        as (self' & news & Hrun & Hall).
      + eapply Forall_impl.
        * apply Forall_forall. intros cycle Hin.
          exact (conj Hin (proj1 (Forall_forall _ _) Hnew cycle Hin)).
        * intros cycle [Hin Hnone]. cbn [bills].
          rewrite lookup_insert_ne; [exact Hnone |].
          intros <-. contradiction.
      + exists self', (b :: news). rewrite Hrun, <- app_assoc.
        split; [reflexivity |]. constructor; [now split | exact Hall]. }
  exists self', news. split; [exact Hrun |]. split; [exact Hall |].
  clear Hrun Hnew Hc. induction Hall as [| cycle b cycles news [_ Hfix] _ IH].
  - rewrite bool_decide_eq_false_2 by apply not_elem_of_nil. reflexivity.
  - apply NoDup_cons in Hnd as [Hnotin Hnd].
    cbn [foldr length]. rewrite Hfix, (IH Hnd).
    rewrite Nat2Z.inj_succ. unfold Z.succ. rewrite inject_Z_plus.
    change (inject_Z 1) with 1%Q.
    destruct (decide (cycle = (month s, year s))) as [-> | Hne].
    + rewrite (bool_decide_eq_true_2 ((month s, year s) = (month s, year s)))
        by reflexivity.
      rewrite (bool_decide_eq_false_2 ((month s, year s) ∈ cycles))
        by exact Hnotin.
      rewrite (bool_decide_eq_true_2
                 ((month s, year s) ∈ (month s, year s) :: cycles))
        by (apply elem_of_cons; now left).
      simpl. lra.
    + rewrite (bool_decide_eq_false_2 (cycle = (month s, year s)))
        by exact Hne.
      destruct (decide ((month s, year s) ∈ cycles)) as [Hin | Hnin].
      * rewrite (bool_decide_eq_true_2 ((month s, year s) ∈ cycles))
          by exact Hin.
        rewrite (bool_decide_eq_true_2 ((month s, year s) ∈ cycle :: cycles))
          by (apply elem_of_cons; now right).
        simpl. lra.
      * rewrite (bool_decide_eq_false_2 ((month s, year s) ∈ cycles))
          by exact Hnin.
        rewrite (bool_decide_eq_false_2
                   ((month s, year s) ∈ cycle :: cycles))
          by (intros Hin; apply elem_of_cons in Hin as [E | Hin]; congruence).
        simpl. lra.
Qed.

Lemma term_line_over_months_witness :
  let self := PhoneLine_init "867-5309"
                (TermContract_init (Date 2017 12 25) (Date 2019 6 25)) in
  ∃ (self' : PhoneLine) (news : list Bill),
    PhoneLine_new_months self [(12, 2017); (1, 2018); (2, 2018)] []
    = Return (self', news) ∧
    (foldr (λ b t, fixed_cost b + t) 0 news == 360)%Q.
Proof.
  intros self.
  destruct (term_line_over_months self (Date 2017 12 25)
              (Some (Date 2019 6 25)) None 0 None
              [(12, 2017); (1, 2018); (2, 2018)] [] eq_refl)
    as (self' & news & Hrun & _ & Hsum).
  - compute_done.
  - repeat (apply Forall_cons_2; [reflexivity |]). apply Forall_nil_2.
  - exists self', news. split; [exact Hrun |]. rewrite Hsum. reflexivity.
Defined.
